(** * whatsapp-engine: a shallow embedding of the session bridge

    The repository holds two versions of the [WhatsAppEngine] class and the
    credential store used by the second one:

    - the file-session engine (credentials kept by [useMultiFileAuthState]
      under [./whatsapp-session]; it has the routes [/check], [/messages],
      [/conversations], [/mark-read] and the [messages.upsert] handler),
      embedded in [Module FileEngine];
    - [index.js], the database-session engine, embedded in [Module DbEngine];
    - [dbSessionStore.js] ([saveSession], [getSession], [deleteSession]),
      embedded in [Module DbStore].

    Handlers are written in a small state / exception / trace monad over the
    fields of the engine object.  Everything the engine awaits from a
    collaborator (the protocol client, the HTTP client, the database driver,
    the clock) enters a handler as an argument carrying the settled result of
    that call. *)

From stdpp Require Import gmap strings list.

Local Open Scope Z_scope.

(** ** JavaScript values and operators used by the source *)

Module Js.

(** Truthiness of a string value that may be [undefined]: [undefined] and
    the empty string are falsy. *)
Definition truthy_str (s : option string) : bool :=
  match s with
  | Some s => negb (String.eqb s "")
  | None => false
  end.

(** [a || b] on possibly undefined strings. *)
Definition or_str (a b : option string) : option string :=
  if truthy_str a then a else b.

(** [n || d] on a number that may be [undefined] / [NaN]: these and [0] are
    falsy. *)
Definition or_num (n : option Z) (d : Z) : Z :=
  match n with
  | Some n => if n =? 0 then d else n
  | None => d
  end.

(** [b || false] on a boolean that may be [undefined]. *)
Definition or_false (b : option bool) : bool := default false b.

(** [s.includes(needle)]. *)
Fixpoint includes (needle s : string) : bool :=
  String.prefix needle s ||
  match s with
  | EmptyString => false
  | String _ s' => includes needle s'
  end.

Fixpoint drop_chars (n : nat) (s : string) : string :=
  match n, s with
  | O, _ => s
  | S n', String _ s' => drop_chars n' s'
  | S _, EmptyString => EmptyString
  end.

(** [s.replace(pat, rep)] with a string pattern: only the first occurrence
    is replaced. *)
Fixpoint replace (pat rep s : string) : string :=
  if String.prefix pat s then rep +:+ drop_chars (String.length pat) s
  else match s with
       | EmptyString => EmptyString
       | String c s' => String c (replace pat rep s')
       end.

(** [arr.slice(start)]: a negative [start] counts from the end, and both
    ends are clamped to the array. *)
Definition slice_from {A} (start : Z) (l : list A) : list A :=
  let len := Z.of_nat (length l) in
  let k := if start <? 0 then Z.max (len + start) 0 else Z.min start len in
  drop (Z.to_nat k) l.

(** [arr.shift()] as used by the source: the first element is removed and
    the returned element is discarded. *)
Definition shift {A} (l : list A) : list A := tail l.

(** [arr[arr.length - 1]]; [undefined] on the empty array. *)
Definition last_elem {A} (l : list A) : option A := last l.

(** A [Map] with string keys whose iteration order matters: entries are
    kept in insertion order, and [set] on a present key keeps its place. *)
Fixpoint Map_get {V} (k : string) (m : list (string * V)) : option V :=
  match m with
  | [] => None
  | (k', v) :: rest => if String.eqb k' k then Some v else Map_get k rest
  end.

Definition Map_has {V} (k : string) (m : list (string * V)) : bool :=
  match Map_get k m with Some _ => true | None => false end.

Fixpoint Map_set {V} (k : string) (v : V) (m : list (string * V)) : list (string * V) :=
  match m with
  | [] => [(k, v)]
  | (k', v') :: rest =>
      if String.eqb k' k then (k', v) :: rest else (k', v') :: Map_set k v rest
  end.

End Js.

(** ** Data *)

(** [this.status]: one of the strings "disconnected", "qr", "connected". *)
Inductive Status := disconnected | qr | connected.

Definition Status_eqb (a b : Status) : bool :=
  match a, b with
  | disconnected, disconnected | qr, qr | connected, connected => true
  | _, _ => false
  end.

(** [messageData] built by the [messages.upsert] handler. *)
Record MessageData := {
  md_id : string;
  md_from : string;
  md_message : string;
  md_timestamp : Z;
  md_fromMe : bool
}.

(** The object pushed by [GET /conversations]. *)
Record Conversation := {
  cv_id : string;
  cv_number : string;
  cv_name : string;
  cv_isGroup : bool;
  cv_unreadCount : Z;
  cv_lastMessage : string;
  cv_lastMessageTime : Z;
  cv_lastMessageFromMe : bool
}.

(** The [data] argument of [sendWebhook]. *)
Record WebhookData := {
  wd_phone_number : option string;
  wd_message_id : string;
  wd_message_content : option string;
  wd_timestamp : Z
}.

(** The envelope posted to the webhook URL. *)
Record WebhookEnvelope := {
  event_type : string;
  timestamp : Z;
  data : WebhookData
}.

(** The socket returned by [makeWASocket]; the engine only keeps the handle.
    [auth_restored] records whether it was opened from saved credentials. *)
Record Sock := { auth_restored : bool }.

(** A row of table [whatsapp_sessions]. *)
Record Row := {
  row_id : Z;
  session_id : string;
  row_data : string
}.

Record Table := {
  rows : list Row;
  auto_increment : Z
}.

(** The engine object together with the two pieces of the environment its
    methods touch: the session directory on disk and the sessions table. *)
Record Engine := {
  sock : option Sock;
  qrCode : option string;
  status : Status;
  messages : gmap string (list MessageData);
  conversations : list (string * list MessageData);
  webhookUrl : string;
  (** delays of the pending [setTimeout(() => this.connect(), d)] calls,
      oldest first *)
  timers : list Z;
  (** [fs.existsSync(this.sessionPath)] *)
  sessionDir : bool;
  db : Table
}.

(** What [this.io.emit] sends to the push subscribers. *)
Inductive Emitted :=
| EmStatus (s : Status)
| EmQr (q : option string)
| EmNewMessage (m : MessageData).

(** Observable actions of a handler, in program order.  A logged text is
    recorded without the pictograph that opens it in the source. *)
Inductive Effect :=
| IoEmit (x : Emitted)
| AxiosPost (url : string) (body : WebhookEnvelope) (timeout : Z)
| SockLogout
| ConsoleLog (msg : string)
| ConsoleError (msg : string) (detail : string).

(** JSON bodies written by the routes. *)
Inductive Body :=
| BodyError (error : string)
| BodySuccess (success : bool) (message : string)
| BodyFailure (error : string)
| BodySent (message : option string) (messageId : string)
| BodyCheck (found : bool) (number : option string) (message : string)
| BodyMessages (number : string) (msgs : list MessageData)
| BodyConversations (convs : list Conversation).

Record Response := { code : Z; body : Body }.

(** [res.json(b)] answers with HTTP 200. *)
Definition json (b : Body) : Response := {| code := 200; body := b |}.
Definition status_json (c : Z) (b : Body) : Response := {| code := c; body := b |}.

(** ** The handler monad *)

(** A thrown JavaScript error: its message and the two properties the HTTP
    client sets on its own errors ([error.response] with the status received,
    [error.request] when a request was made). *)
Record JsError := {
  err_message : string;
  err_response : option Z;
  err_request : bool
}.

(** [new Error(msg)] *)
Definition Error (msg : string) : JsError :=
  {| err_message := msg; err_response := None; err_request := false |}.

(** A settled promise: fulfilled with a value or rejected with an error. *)
Inductive Res (A : Type) :=
| Ok (a : A)
| Err (x : JsError).
Arguments Ok {A} a.
Arguments Err {A} x.

Definition M (A : Type) : Type := Engine -> Res A * Engine * list Effect.

Definition ret {A} (a : A) : M A := fun e => (Ok a, e, []).

Definition bind {A B} (m : M A) (k : A -> M B) : M B := fun e =>
  match m e with
  | (Ok a, e1, t1) => let '(r, e2, t2) := k a e1 in (r, e2, t1 ++ t2)
  | (Err x, e1, t1) => (Err x, e1, t1)
  end.

Definition throw {A} (x : JsError) : M A := fun e => (Err x, e, []).

(** [try { m } catch (error) { h error }] *)
Definition try_catch {A} (m : M A) (h : JsError -> M A) : M A := fun e =>
  match m e with
  | (Ok a, e1, t1) => (Ok a, e1, t1)
  | (Err x, e1, t1) => let '(r, e2, t2) := h x e1 in (r, e2, t1 ++ t2)
  end.

(** [await p] for a promise of a collaborator that settled as [r]. *)
Definition await {A} (r : Res A) : M A := fun e => (r, e, []).

Definition get : M Engine := fun e => (Ok e, e, []).
Definition modify (f : Engine -> Engine) : M unit := fun e => (Ok tt, f e, []).
Definition tell (x : Effect) : M unit := fun e => (Ok tt, e, [x]).

(** Calling an async method without [await]: its actions happen, its outcome
    is not observed by the caller. *)
Definition detached {A} (m : M A) : M unit := fun e =>
  let '(_, e1, t1) := m e in (Ok tt, e1, t1).

Notation "'let*' x := m 'in' k" := (bind m (fun x => k))
  (at level 10, x name, m at level 100, k at level 200).
Notation "m >> k" := (bind m (fun _ => k))
  (at level 100, k at level 200, right associativity).

Definition result {A} (x : Res A * Engine * list Effect) : Res A := x.1.1.
Definition final {A} (x : Res A * Engine * list Effect) : Engine := x.1.2.
Definition trace {A} (x : Res A * Engine * list Effect) : list Effect := x.2.

(** Field updates of the engine object. *)
Definition set_sock (v : option Sock) (e : Engine) : Engine :=
  {| sock := v; qrCode := qrCode e; status := status e; messages := messages e;
     conversations := conversations e; webhookUrl := webhookUrl e;
     timers := timers e; sessionDir := sessionDir e; db := db e |}.
Definition set_qrCode (v : option string) (e : Engine) : Engine :=
  {| sock := sock e; qrCode := v; status := status e; messages := messages e;
     conversations := conversations e; webhookUrl := webhookUrl e;
     timers := timers e; sessionDir := sessionDir e; db := db e |}.
Definition set_status (v : Status) (e : Engine) : Engine :=
  {| sock := sock e; qrCode := qrCode e; status := v; messages := messages e;
     conversations := conversations e; webhookUrl := webhookUrl e;
     timers := timers e; sessionDir := sessionDir e; db := db e |}.
Definition set_messages (v : gmap string (list MessageData)) (e : Engine) : Engine :=
  {| sock := sock e; qrCode := qrCode e; status := status e; messages := v;
     conversations := conversations e; webhookUrl := webhookUrl e;
     timers := timers e; sessionDir := sessionDir e; db := db e |}.
Definition set_conversations (v : list (string * list MessageData)) (e : Engine) : Engine :=
  {| sock := sock e; qrCode := qrCode e; status := status e; messages := messages e;
     conversations := v; webhookUrl := webhookUrl e;
     timers := timers e; sessionDir := sessionDir e; db := db e |}.
Definition set_timers (v : list Z) (e : Engine) : Engine :=
  {| sock := sock e; qrCode := qrCode e; status := status e; messages := messages e;
     conversations := conversations e; webhookUrl := webhookUrl e;
     timers := v; sessionDir := sessionDir e; db := db e |}.
Definition set_sessionDir (v : bool) (e : Engine) : Engine :=
  {| sock := sock e; qrCode := qrCode e; status := status e; messages := messages e;
     conversations := conversations e; webhookUrl := webhookUrl e;
     timers := timers e; sessionDir := v; db := db e |}.
Definition set_db (v : Table) (e : Engine) : Engine :=
  {| sock := sock e; qrCode := qrCode e; status := status e; messages := messages e;
     conversations := conversations e; webhookUrl := webhookUrl e;
     timers := timers e; sessionDir := sessionDir e; db := v |}.

(** [setTimeout(() => this.connect(), d)]: one more pending timer. *)
Definition setTimeout_connect (d : Z) : M unit :=
  modify (fun e => set_timers (timers e ++ [d]) e).

(** The engine as the constructor leaves it, before [connect] runs. *)
Definition new_engine (url : string) : Engine :=
  {| sock := None; qrCode := None; status := disconnected;
     messages := ∅; conversations := []; webhookUrl := url;
     timers := []; sessionDir := false;
     db := {| rows := []; auto_increment := 1 |} |}.

(** Firing the oldest pending timer runs its callback, [this.connect()]. *)
Definition fire_timer (connect : M unit) : M unit :=
  let* e := get in
  match timers e with
  | [] => ret tt
  | _ :: rest => modify (set_timers rest) >> connect
  end.

(** [broadcast()], the same in both engines. *)
Definition broadcast : M unit :=
  let* e := get in
  tell (IoEmit (EmStatus (status e))) >>
  tell (IoEmit (EmQr (qrCode e))).

(** ** Collaborators *)

(** One entry of the array returned by [sock.onWhatsApp(number)]. *)
Record OnWhatsApp := { ow_exists : bool; ow_jid : string }.

(** The value [sock.onWhatsApp] settles with; [None] stands for
    [undefined] / [null]. *)
Definition Lookup : Type := Res (option (list OnWhatsApp)).

(** [!results?.length] *)
Definition no_results (results : option (list OnWhatsApp)) : bool :=
  match results with
  | Some (_ :: _) => false
  | _ => true
  end.

(** The message returned by [sock.sendMessage]; only [key.id] is read. *)
Record SentMessage := { key_id : string }.

(** [this.sock.f(...)]: reading a method of [null] throws a [TypeError]. *)
Definition call_sock {A} (r : Res A) : M A :=
  let* e := get in
  match sock e with
  | Some _ => await r
  | None => throw (Error "Cannot read properties of null")
  end.

(** What the webhook endpoint does with one request: it answers with an HTTP
    status, or no answer arrives (refused, unreachable, timed out). *)
Inductive HttpOutcome :=
| HttpStatus (c : Z)
| NetworkFailure (msg : string).

(** The status check the HTTP client applies when the call gives none. *)
Definition default_validateStatus (s : Z) : bool := (200 <=? s) && (s <? 300).

(** [axios.post(url, body, { timeout, validateStatus })]: one request is
    issued; the promise is rejected when no answer arrives or when
    [validateStatus] refuses the status. *)
Definition axios_post (url : string) (payload : WebhookEnvelope) (timeout_ms : Z)
    (validateStatus : option (Z -> bool)) (o : HttpOutcome) : M Z :=
  tell (AxiosPost url payload timeout_ms) >>
  match o with
  | NetworkFailure msg =>
      throw {| err_message := msg; err_response := None; err_request := true |}
  | HttpStatus c =>
      if default default_validateStatus validateStatus c then ret c
      else throw {| err_message := "Request failed with status code";
                    err_response := Some c; err_request := true |}
  end.

(** [require(name)] evaluated in the file of the file-session engine.  That
    file begins with [import] declarations, so it is loaded as an ES module,
    where the identifier [require] is not defined: evaluating the call
    throws a [ReferenceError]. *)
Definition require (name : string) : Res unit :=
  Err (Error "require is not defined").

(** [DisconnectReason.loggedOut] of the protocol client. *)
Definition DisconnectReason_loggedOut : Z := 401.

(** The [connection] field of a [connection.update] event. *)
Inductive Connection := conn_open | conn_close | conn_connecting.

(** The three fields the handler destructures; [statusCode] is
    [lastDisconnect?.error?.output?.statusCode]. *)
Record ConnectionUpdate := {
  connection : option Connection;
  statusCode : option Z;
  upd_qr : option string
}.

(** [statusCode !== DisconnectReason.loggedOut] *)
Definition shouldReconnect (u : ConnectionUpdate) : bool :=
  match statusCode u with
  | Some c => negb (c =? DisconnectReason_loggedOut)
  | None => true
  end.

(** A message of a [messages.upsert] event. *)
Record WAMessage := {
  key_remoteJid : string;
  msg_key_id : string;
  key_fromMe : option bool;
  conversation : option string;
  extendedText : option string;
  messageTimestamp : option Z
}.

Record Upsert := {
  upsert_messages : list WAMessage;
  upsert_type : string
}.

(** Credential and key material are opaque to the engine. *)
Definition Creds : Type := string.
Definition Keys : Type := string.

(** The object handed to [saveSession] and expected back from
    [getSession]; a field can be missing from what the store returns. *)
Record AuthState := { creds : option Creds; keys : option Keys }.

(** The body of [GET /status]. *)
Record StatusBody := { sb_status : Status; sb_qr : option string }.

(** [GET /status]: [res.json({ status: this.status, qr: this.qrCode })], the
    same in both engines; the answer is the HTTP code and the body. *)
Definition get_status : M (Z * StatusBody) :=
  let* e := get in
  ret (200, {| sb_status := status e; sb_qr := qrCode e |}).

(** The [connection] handler of [setupSocketIO], the same in both engines:
    what [socket.emit] sends to the socket that just connected. *)
Definition on_socket_connection : M (list Emitted) :=
  let* e := get in
  ret (EmStatus (status e)
       :: (if Js.truthy_str (qrCode e) then [EmQr (qrCode e)] else [])).

(** An entry of a [messages.update] event: [update.update.status] and
    [update.key.id]. *)
Record StatusUpdate := { su_status : option Z; su_key_id : string }.

(** ** dbSessionStore.js *)

Module DbStore.

(** The statements the store executes, on a table whose [session_id] column
    is [UNIQUE] and whose [id] column is [AUTO_INCREMENT]. *)

Definition has_session (sid : string) (t : Table) : bool :=
  existsb (fun r => String.eqb (session_id r) sid) (rows t).

(** [INSERT INTO whatsapp_sessions (session_id, data) VALUES (?, ?)
     ON DUPLICATE KEY UPDATE data = VALUES(data), updated_at = ...] *)
Definition insert_on_duplicate_key_update (sid json : string) (t : Table) : Table :=
  if has_session sid t then
    {| rows := map (fun r => if String.eqb (session_id r) sid
                             then {| row_id := row_id r; session_id := session_id r;
                                     row_data := json |}
                             else r) (rows t);
       auto_increment := auto_increment t |}
  else
    {| rows := rows t ++ [ {| row_id := auto_increment t; session_id := sid;
                              row_data := json |} ];
       auto_increment := auto_increment t + 1 |}.

(** [SELECT data FROM whatsapp_sessions WHERE session_id = ?] *)
Definition select_data (sid : string) (t : Table) : list string :=
  map row_data (filter (fun r => session_id r = sid) (rows t)).

(** [DELETE FROM whatsapp_sessions WHERE session_id = ?] *)
Definition delete_where (sid : string) (t : Table) : Table :=
  {| rows := filter (fun r => session_id r <> sid) (rows t);
     auto_increment := auto_increment t |}.

(** [await db.execute(stmt)] for a write: [q] is how the driver settles
    the call; the table changes only when the statement ran. *)
Definition db_execute (q : Res unit) (stmt : Table -> Table) : M unit :=
  await q >> modify (fun e => set_db (stmt (db e)) e).

(** [await db.execute(query)] for a read. *)
Definition db_query {A} (q : Res unit) (query : Table -> list A) : M (list A) :=
  await q >> let* e := get in ret (query (db e)).

Section Json.
(** [JSON_stringify] is [JSON.stringify] on credential blobs.
    [JSON_parse d] is what [JSON.parse(rows[0].data)] yields for a row whose
    stored document is [d], whatever the driver makes of the [data] column
    before handing it over; it is [None] both when the call throws and when
    it returns [null] (the caller turns either into [null]).  A driver that
    decodes a column of type [JSON] hands over an object instead of a text,
    on which [JSON.parse] throws: for such a driver [JSON_parse] is [None]
    on every stored object.  Nothing below assumes that a stored blob comes
    back. *)
Variable JSON_stringify : AuthState -> string.
Variable JSON_parse : string -> option AuthState.

Definition saveSession (q : Res unit) (sessionId : string) (data : AuthState) : M unit :=
  let json := JSON_stringify data in
  db_execute q (insert_on_duplicate_key_update sessionId json).

Definition getSession (q : Res unit) (sessionId : string) : M (option AuthState) :=
  let* found := db_query q (select_data sessionId) in
  match found with
  | d :: _ => ret (JSON_parse d)
  | [] => ret None
  end.
End Json.

Definition deleteSession (q : Res unit) (sessionId : string) : M unit :=
  db_execute q (delete_where sessionId).

(** Calls a client of the store can make, each with the way the driver
    settles it. *)
Inductive Call :=
| CallSave (q : Res unit) (sessionId : string) (data : AuthState)
| CallDelete (q : Res unit) (sessionId : string).

Definition run_call (JSON_stringify : AuthState -> string) (c : Call) (e : Engine) : Engine :=
  match c with
  | CallSave q sid d => final (saveSession JSON_stringify q sid d e)
  | CallDelete q sid => final (deleteSession q sid e)
  end.

Definition run_calls (JSON_stringify : AuthState -> string) (cs : list Call) (e : Engine) : Engine :=
  foldl (fun e c => run_call JSON_stringify c e) e cs.

(** Number of rows held for a session identifier. *)
Definition rows_for (sid : string) (t : Table) : nat :=
  length (filter (fun r => session_id r = sid) (rows t)).

End DbStore.

(** ** The file-session engine *)

Module FileEngine.

Definition cleanup : M unit :=
  modify (set_sock None) >>
  modify (set_qrCode None) >>
  modify (set_status disconnected) >>
  (let* e := get in
   if sessionDir e then modify (set_sessionDir false) else ret tt) >>
  broadcast.

(** [sendWebhook(eventType, data)]; [now] is [Date.now()], [o] is what the
    endpoint would do with a request.  The first statement of the [try]
    block is [const axios = require("axios")]: it throws, and control
    passes to the [catch] block before anything is logged or sent. *)
Definition sendWebhook (eventType : string) (payload : WebhookData) (now : Z)
    (o : HttpOutcome) : M unit :=
  try_catch
    (await (require "axios") >>
     let webhookData :=
       {| event_type := eventType; timestamp := now; data := payload |} in
     tell (ConsoleLog ("Sending webhook: " +:+ eventType)) >>
     let* e := get in
     let* response_status :=
       axios_post (webhookUrl e) webhookData 10000 (Some (fun s => s <? 500)) o in
     (if 400 <=? response_status
      then throw (Error "HTTP status") else ret tt) >>
     tell (ConsoleLog ("Webhook sent successfully: " +:+ eventType)))
    (fun error =>
       tell (ConsoleError ("Failed to send webhook: " +:+ eventType)
                          (err_message error)) >>
       match err_response error with
       | Some _ =>
           tell (ConsoleError "Response status" "") >>
           tell (ConsoleError "Response data" "")
       | None =>
           if err_request error
           then tell (ConsoleError "No response received from webhook URL" "")
           else ret tt
       end).

(** [connect()]; [establish] is the outcome of the awaited set-up calls
    ([useMultiFileAuthState], [fetchLatestBaileysVersion]) followed by
    [makeWASocket]. *)
Definition connect (establish : Res Sock) : M unit :=
  try_catch
    (let* s := await establish in
     modify (set_sock (Some s)))
    (fun error =>
       tell (ConsoleError "Connection error:" (err_message error)) >>
       setTimeout_connect 5000).

(** The [connection.update] handler; [toDataURL] is [qrcode.toDataURL]. *)
Definition on_connection_update (update : ConnectionUpdate)
    (toDataURL : string -> Res string) : M unit :=
  (match upd_qr update with
   | Some raw =>
       if Js.truthy_str (Some raw) then
         let* url := await (toDataURL raw) in
         modify (set_qrCode (Some url)) >>
         modify (set_status qr) >>
         broadcast
       else ret tt
   | None => ret tt
   end) >>
  match connection update with
  | Some conn_close =>
      (if shouldReconnect update then setTimeout_connect 3000 else ret tt) >>
      modify (set_status disconnected) >>
      modify (set_qrCode None) >>
      broadcast
  | Some conn_open =>
      modify (set_status connected) >>
      modify (set_qrCode None) >>
      broadcast
  | _ => ret tt
  end.

(** The [creds.update] handler: the [saveCreds] function returned by the
    library's [useMultiFileAuthState], registered as it is; the argument is
    how that write settles. *)
Definition on_creds_update (saveCreds : Res unit) : M unit := await saveCreds.

(** [jid.replace("@s.whatsapp.net", "").replace("@g.us", "")] *)
Definition display_number (jid : string) : string :=
  Js.replace "@g.us" "" (Js.replace "@s.whatsapp.net" "" jid).

(** [message.message?.conversation ||
     message.message?.extendedTextMessage?.text || "[Media/Other]"] *)
Definition messageText (message : WAMessage) : string :=
  default "[Media/Other]"
    (Js.or_str (Js.or_str (conversation message) (extendedText message))
               (Some "[Media/Other]")).

Definition messageData (message : WAMessage) (now : Z) : MessageData :=
  {| md_id := msg_key_id message;
     md_from := display_number (key_remoteJid message);
     md_message := messageText message;
     md_timestamp := Js.or_num (messageTimestamp message) now;
     md_fromMe := Js.or_false (key_fromMe message) |}.

(** [messages.push(messageData)] followed by
    [if (messages.length > 50) messages.shift()]. *)
Definition push_evict (buf : list MessageData) (md : MessageData) : list MessageData :=
  let pushed := buf ++ [md] in
  if 50 <? Z.of_nat (length pushed) then Js.shift pushed else pushed.

(** The store into [this.messages]: the peer's array is created if absent,
    the record is pushed, and the first element is shifted out once the
    length exceeds 50.  The array is updated in place, so the map sees the
    new contents. *)
Definition archive_message (jid : string) (md : MessageData)
    (msgs : gmap string (list MessageData)) : gmap string (list MessageData) :=
  let msgs1 := match msgs !! jid with
               | Some _ => msgs
               | None => <[jid := []]> msgs
               end in
  <[jid := push_evict (default [] (msgs1 !! jid)) md]> msgs1.

(** The store into [this.conversations]. *)
Definition archive_conversation (jid : string) (md : MessageData)
    (convs : list (string * list MessageData)) : list (string * list MessageData) :=
  let convs1 := if Js.Map_has jid convs then convs else Js.Map_set jid [] convs in
  Js.Map_set jid (default [] (Js.Map_get jid convs1) ++ [md]) convs1.

(** The [messages.upsert] handler. *)
Definition on_messages_upsert (m : Upsert) (now : Z) (o : HttpOutcome) : M unit :=
  match upsert_messages m with
  | message :: _ =>
      if String.eqb (upsert_type m) "notify" then
        let jid := key_remoteJid message in
        let md := messageData message now in
        modify (fun e => set_messages (archive_message jid md (messages e)) e) >>
        modify (fun e => set_conversations
                           (archive_conversation jid md (conversations e)) e) >>
        tell (IoEmit (EmNewMessage md)) >>
        (if negb (md_fromMe md) then
           detached (sendWebhook "message_received"
                       {| wd_phone_number := Some (md_from md);
                          wd_message_id := msg_key_id message;
                          wd_message_content := Some (md_message md);
                          wd_timestamp := md_timestamp md |} now o)
         else ret tt) >>
        tell (ConsoleLog ("New message from " +:+ md_from md +:+ ": "
                          +:+ md_message md))
      else ret tt
  | [] => ret tt
  end.

(** ** Routes *)

Definition not_connected : Response :=
  status_json 400 (BodyError "WhatsApp not connected").

Definition post_disconnect (logout : Res unit) : M Response :=
  try_catch
    (let* e := get in
     match sock e with
     | Some _ =>
         if Status_eqb (status e) connected then
           tell SockLogout >>
           await logout >>
           cleanup >>
           setTimeout_connect 1000 >>
           ret (json (BodySuccess true "Disconnected successfully"))
         else ret (json (BodyFailure "Not connected to WhatsApp"))
     | None => ret (json (BodyFailure "Not connected to WhatsApp"))
     end)
    (fun _ =>
       cleanup >>
       setTimeout_connect 1000 >>
       ret (json (BodySuccess true "Disconnected"))).

Definition post_send (number message : option string) (lookup : Lookup)
    (send : Res SentMessage) (now : Z) (o : HttpOutcome) : M Response :=
  let* e := get in
  if negb (Status_eqb (status e) connected) then ret not_connected
  else if negb (Js.truthy_str number) || negb (Js.truthy_str message) then
    ret (status_json 400 (BodyError "Number and message are required"))
  else
    try_catch
      (let* results := call_sock lookup in
       match results with
       | Some (found :: _) =>
           if negb (ow_exists found) then
             ret (status_json 400 (BodyError "Number not found on WhatsApp"))
           else
             let* sentMessage := call_sock send in
             detached (sendWebhook "message_sent"
                         {| wd_phone_number := number;
                            wd_message_id := key_id sentMessage;
                            wd_message_content := message;
                            wd_timestamp := now |} now o) >>
             ret (json (BodySent (Some "Message sent successfully")
                                 (key_id sentMessage)))
       | _ => ret (status_json 400 (BodyError "Invalid number format"))
       end)
      (fun _ => ret (status_json 500 (BodyError "Failed to send message"))).

Definition get_check (number : string) (lookup : Lookup) : M Response :=
  let* e := get in
  if negb (Status_eqb (status e) connected) then ret not_connected
  else
    try_catch
      (let* results := call_sock lookup in
       match results with
       | Some (found :: _) =>
           ret (json (BodyCheck (ow_exists found) (Some number)
                        (if ow_exists found then "Number exists on WhatsApp"
                         else "Number not found on WhatsApp")))
       | _ => ret (json (BodyCheck false None "Invalid number format"))
       end)
      (fun _ => ret (status_json 500 (BodyError "Failed to check number"))).

(** [(this.messages.get(jid) || []).slice(-limit)] *)
Definition recent (msgs : gmap string (list MessageData)) (jid : string)
    (limit : Z) : list MessageData :=
  Js.slice_from (- limit) (default [] (msgs !! jid)).

(** [limit_q] is [parseInt(req.query.limit)], [None] for [NaN]. *)
Definition get_messages (number : string) (limit_q : option Z)
    (lookup : Lookup) : M Response :=
  let* e := get in
  if negb (Status_eqb (status e) connected) then ret not_connected
  else
    try_catch
      (let limit := Js.or_num limit_q 20 in
       let* results := call_sock lookup in
       match results with
       | Some (found :: _) =>
           if negb (ow_exists found) then
             ret (status_json 400 (BodyError "Number not found on WhatsApp"))
           else
             let jid := ow_jid found in
             let* e := get in
             ret (json (BodyMessages number (recent (messages e) jid limit)))
       | _ => ret (status_json 400 (BodyError "Number not found on WhatsApp"))
       end)
      (fun error =>
         tell (ConsoleError "Error fetching messages:" (err_message error)) >>
         ret (status_json 500 (BodyError "Failed to fetch messages"))).

Definition conversation_of (jid : string) (msgs : list MessageData) (now : Z)
    : Conversation :=
  let number := display_number jid in
  let lastMessage := Js.last_elem msgs in
  {| cv_id := jid;
     cv_number := number;
     cv_name := number;
     cv_isGroup := false;
     cv_unreadCount := 0;
     cv_lastMessage :=
       default "No messages"
         (Js.or_str (md_message <$> lastMessage) (Some "No messages"));
     cv_lastMessageTime := Js.or_num (md_timestamp <$> lastMessage) now;
     cv_lastMessageFromMe := Js.or_false (md_fromMe <$> lastMessage) |}.

(** The [for ... of this.conversations.entries()] loop, with its running
    [count] and the [conversations] array built so far. *)
Fixpoint conversations_loop (limit now : Z)
    (entries : list (string * list MessageData)) (count : Z)
    (acc : list Conversation) : list Conversation :=
  match entries with
  | [] => acc
  | (jid, msgs) :: rest =>
      if limit <=? count then acc
      else
        let isGroup := Js.includes "@g.us" jid in
        if negb isGroup then
          conversations_loop limit now rest (count + 1)
            (acc ++ [conversation_of jid msgs now])
        else conversations_loop limit now rest count acc
  end.

Definition listConversations (convs : list (string * list MessageData))
    (limit now : Z) : list Conversation :=
  conversations_loop limit now convs 0 [].

Definition get_conversations (limit_q : option Z) (now : Z) : M Response :=
  let* e := get in
  if negb (Status_eqb (status e) connected) then ret not_connected
  else
    try_catch
      (let limit := Js.or_num limit_q 20 in
       let* e := get in
       ret (json (BodyConversations (listConversations (conversations e) limit now))))
      (fun error =>
         tell (ConsoleError "Error fetching conversations:" (err_message error)) >>
         ret (status_json 500 (BodyError "Failed to fetch conversations"))).

(** One turn of the loop of the [messages.update] handler; [o] is what the
    webhook endpoint does if this update makes a request. *)
Definition status_webhook (update : StatusUpdate) (now : Z) (o : HttpOutcome)
    : M unit :=
  match su_status update with
  | Some st =>
      if st =? 0 then ret tt
      else if st =? 3 then
        detached (sendWebhook "message_delivered"
                    {| wd_phone_number := None;
                       wd_message_id := su_key_id update;
                       wd_message_content := None;
                       wd_timestamp := now |} now o)
      else if st =? 4 then
        detached (sendWebhook "message_read"
                    {| wd_phone_number := None;
                       wd_message_id := su_key_id update;
                       wd_message_content := None;
                       wd_timestamp := now |} now o)
      else ret tt
  | None => ret tt
  end.

(** The [messages.update] handler. *)
Fixpoint on_messages_update (updates : list (StatusUpdate * HttpOutcome))
    (now : Z) : M unit :=
  match updates with
  | [] => ret tt
  | (update, o) :: rest =>
      status_webhook update now o >> on_messages_update rest now
  end.

(** [POST /mark-read]; [read] settles [sock.readMessages]. *)
Definition post_mark_read (number : option string) (lookup : Lookup)
    (read : Res unit) : M Response :=
  let* e := get in
  if negb (Status_eqb (status e) connected) then ret not_connected
  else
    try_catch
      (let* results := call_sock lookup in
       match results with
       | Some (found :: _) =>
           if negb (ow_exists found) then
             ret (status_json 400 (BodyError "Number not found on WhatsApp"))
           else
             call_sock read >>
             ret (json (BodySuccess true "Messages marked as read"))
       | _ => ret (status_json 400 (BodyError "Number not found on WhatsApp"))
       end)
      (fun error =>
         tell (ConsoleError "Error marking messages as read:" (err_message error)) >>
         ret (status_json 500 (BodyError "Failed to mark messages as read"))).

End FileEngine.

(** ** index.js: the database-session engine *)

Module DbEngine.

Definition cleanup : M unit :=
  modify (set_sock None) >>
  modify (set_qrCode None) >>
  modify (set_status disconnected) >>
  broadcast.

Definition sendWebhook (eventType : string) (payload : WebhookData) (now : Z)
    (o : HttpOutcome) : M unit :=
  try_catch
    (let envelope :=
       {| event_type := eventType; timestamp := now; data := payload |} in
     let* e := get in
     let* _ := axios_post (webhookUrl e) envelope 8000 None o in
     ret tt)
    (fun error =>
       tell (ConsoleError ("Webhook failed (" +:+ eventType +:+ "):")
                          (err_message error))).

Section Json.
Variable JSON_stringify : AuthState -> string.
Variable JSON_parse : string -> option AuthState.

(** [savedAuth && savedAuth.creds && savedAuth.keys]: each operand is
    tested for truthiness. *)
Definition usable (savedAuth : option AuthState) : bool :=
  match savedAuth with
  | Some a => Js.truthy_str (creds a) && Js.truthy_str (keys a)
  | None => false
  end.

(** [connect()]; [version] settles [fetchLatestBaileysVersion()], [q] the
    query of [getSession], [make] the call of [makeWASocket]. *)
Definition connect (version : Res unit) (q : Res unit) (make : Res unit) : M unit :=
  try_catch
    (await version >>
     let* savedAuth := DbStore.getSession JSON_parse q "default" in
     tell (ConsoleLog (if usable savedAuth
                       then "Restoring WhatsApp session from DB..."
                       else "No saved session found. Starting new login...")) >>
     await make >>
     modify (set_sock (Some {| auth_restored := usable savedAuth |})))
    (fun error =>
       tell (ConsoleError "Connection error:" (err_message error)) >>
       setTimeout_connect 5000).

(** The [creds.update] handler; [current] is [this.sock.authState.creds],
    [getAll] settles [this.sock.authState.keys.getAll()], [q] the
    statement of [saveSession]. *)
Definition on_creds_update (current : Creds) (getAll : Res Keys) (q : Res unit)
    : M unit :=
  let* ks := call_sock getAll in
  let authState := {| creds := Some current; keys := Some ks |} in
  DbStore.saveSession JSON_stringify q "default" authState >>
  tell (ConsoleLog "WhatsApp session updated in DB").
End Json.

Definition on_connection_update (update : ConnectionUpdate)
    (toDataURL : string -> Res string) : M unit :=
  (match upd_qr update with
   | Some raw =>
       if Js.truthy_str (Some raw) then
         let* url := await (toDataURL raw) in
         modify (set_qrCode (Some url)) >>
         modify (set_status qr) >>
         broadcast
       else ret tt
   | None => ret tt
   end) >>
  match connection update with
  | Some conn_open =>
      modify (set_status connected) >>
      modify (set_qrCode None) >>
      broadcast >>
      tell (ConsoleLog "WhatsApp connected")
  | Some conn_close =>
      (if shouldReconnect update then setTimeout_connect 3000 else ret tt) >>
      modify (set_status disconnected) >>
      modify (set_qrCode None) >>
      broadcast
  | _ => ret tt
  end.

(** ** Routes *)

Definition post_disconnect (logout : Res unit) : M Response :=
  try_catch
    (let* e := get in
     match sock e with
     | Some _ =>
         if Status_eqb (status e) connected then
           tell SockLogout >>
           await logout >>
           cleanup >>
           ret (json (BodySuccess true "Disconnected"))
         else ret (json (BodySuccess false "Already disconnected"))
     | None => ret (json (BodySuccess false "Already disconnected"))
     end)
    (fun error =>
       tell (ConsoleError "Disconnect error:" (err_message error)) >>
       ret (status_json 500 (BodyFailure "Disconnect failed"))).

Definition post_send (number message : option string) (lookup : Lookup)
    (send : Res SentMessage) (now : Z) (o : HttpOutcome) : M Response :=
  let* e := get in
  if negb (Status_eqb (status e) connected) then
    ret (status_json 400 (BodyError "WhatsApp not connected"))
  else if negb (Js.truthy_str number) || negb (Js.truthy_str message) then
    ret (status_json 400 (BodyError "Number and message required"))
  else
    try_catch
      (let* results := call_sock lookup in
       match results with
       | Some (found :: _) =>
           if negb (ow_exists found) then
             ret (status_json 400 (BodyError "Invalid number"))
           else
             let jid := ow_jid found in
             let* sentMessage := call_sock send in
             sendWebhook "message_sent"
               {| wd_phone_number := number;
                  wd_message_id := key_id sentMessage;
                  wd_message_content := message;
                  wd_timestamp := now |} now o >>
             ret (json (BodySent None (key_id sentMessage)))
       | _ => ret (status_json 400 (BodyError "Invalid number"))
       end)
      (fun error =>
         tell (ConsoleError "Send error:" (err_message error)) >>
         ret (status_json 500 (BodyError "Failed to send"))).

End DbEngine.

(** ** Runs: handlers applied to a sequence of events *)

(** A [connection.update] event reporting a closed connection whose
    [lastDisconnect] carries status code [cause] (or none). *)
Definition closed (cause : option Z) : ConnectionUpdate :=
  {| connection := Some conn_close; statusCode := cause; upd_qr := None |}.

(** The cause of a close is an explicit logout. *)
Definition is_logout (cause : option Z) : bool :=
  match cause with
  | Some c => c =? DisconnectReason_loggedOut
  | None => false
  end.

(** The engine after the stream delivered the updates [us] one after the
    other, no timer firing in between. *)
Definition run_updates (handler : ConnectionUpdate -> M unit)
    (us : list ConnectionUpdate) (e : Engine) : Engine :=
  foldl (fun e u => final (handler u e)) e us.

(** The archive after the records [rs] were stored, each under its peer key,
    in arrival order. *)
Definition archive_all (rs : list (string * MessageData))
    (msgs : gmap string (list MessageData)) : gmap string (list MessageData) :=
  foldl (fun m r => FileEngine.archive_message r.1 r.2 m) msgs rs.

Definition archive_all_conversations (rs : list (string * MessageData))
    (convs : list (string * list MessageData)) : list (string * list MessageData) :=
  foldl (fun m r => FileEngine.archive_conversation r.1 r.2 m) convs rs.

(** The records of [rs] that arrived for [peer], in arrival order. *)
Definition arrived_for (peer : string) (rs : list (string * MessageData))
    : list MessageData :=
  map snd (filter (fun r => r.1 = peer) rs).

(** The last [k] elements of a list. *)
Definition last_n {A} (k : nat) (l : list A) : list A :=
  drop (length l - k) l.

(** The keys of [ks] in order of first occurrence, given those [seen]
    before. *)
Fixpoint first_seen (seen : list string) (ks : list string) : list string :=
  match ks with
  | [] => []
  | k :: rest =>
      if bool_decide (k ∈ seen) then first_seen seen rest
      else k :: first_seen (seen ++ [k]) rest
  end.

(** The peer identifier does not carry the group marker. *)
Definition individual (jid : string) : Prop := Js.includes "@g.us" jid = false.

(** The HTTP requests of a trace. *)
Definition posts (t : list Effect) : list (string * WebhookEnvelope * Z) :=
  omap (fun x => match x with
                 | AxiosPost u b t => Some (u, b, t)
                 | _ => None
                 end) t.

(** The lines written with [console.error]. *)
Definition errors_logged (t : list Effect) : list (string * string) :=
  omap (fun x => match x with
                 | ConsoleError m d => Some (m, d)
                 | _ => None
                 end) t.


(** The records sent to the push subscribers as [new-message]. *)
Definition new_messages (t : list Effect) : list MessageData :=
  omap (fun x => match x with
                 | IoEmit (EmNewMessage m) => Some m
                 | _ => None
                 end) t.

(** The webhook delivery failed: a status of 400 or more, or no answer. *)
Definition delivery_failed (o : HttpOutcome) : bool :=
  match o with
  | HttpStatus c => 400 <=? c
  | NetworkFailure _ => true
  end.

(** [!results?.length || !results[0].exists]: the lookup reports that the
    peer does not exist. *)
Definition reports_absent (results : option (list OnWhatsApp)) : bool :=
  match results with
  | Some (found :: _) => negb (ow_exists found)
  | _ => true
  end.

(** The event name and message id carried by each HTTP request of a trace. *)
Definition webhook_events (t : list Effect) : list (string * string) :=
  map (fun p => (event_type p.1.2, wd_message_id (data p.1.2))) (posts t).

(** The HTTP status a route answered with; [None] when the handler threw
    before answering. *)
Definition http_code (x : Res Response * Engine * list Effect) : option Z :=
  match result x with
  | Ok r => Some (code r)
  | Err _ => None
  end.

(** An engine whose session is open, as [connect] and the [open] update leave
    it. *)
Definition connected_engine : Engine :=
  set_status connected
    (set_sock (Some {| auth_restored := false |})
       (new_engine "http://localhost:8000/webhook/whatsapp")).

(** [n] records arriving one after the other from one peer, told apart by
    their timestamps. *)
Definition sample_record (i : nat) : MessageData :=
  {| md_id := "MSG"; md_from := "15550000000"; md_message := "hi";
     md_timestamp := Z.of_nat i; md_fromMe := false |}.

Definition sample_arrivals (n : nat) : list (string * MessageData) :=
  map (fun i => ("15550000000@s.whatsapp.net", sample_record i)) (seq 0 n).

(** The timeouts of the HTTP requests of a trace. *)
Definition post_timeouts (t : list Effect) : list Z :=
  map (fun p => p.2) (posts t).

(** ** Event runs of the two engines *)

(** What can happen to the file-session engine: a stream event, a timer
    firing, or an HTTP request, each with the way its collaborators settle. *)
Inductive FileEvent :=
| FConnect (establish : Res Sock)
| FTimer (establish : Res Sock)
| FConnectionUpdate (u : ConnectionUpdate) (toDataURL : string -> Res string)
| FCredsUpdate (saveCreds : Res unit)
| FUpsert (m : Upsert) (now : Z) (o : HttpOutcome)
| FStatusUpdates (updates : list (StatusUpdate * HttpOutcome)) (now : Z)
| FDisconnect (logout : Res unit)
| FSend (number message : option string) (lookup : Lookup)
        (send : Res SentMessage) (now : Z) (o : HttpOutcome)
| FCheck (number : string) (lookup : Lookup)
| FMessages (number : string) (limit_q : option Z) (lookup : Lookup)
| FConversations (limit_q : option Z) (now : Z)
| FMarkRead (number : option string) (lookup : Lookup) (read : Res unit).

Definition file_step (ev : FileEvent) (e : Engine) : Engine :=
  match ev with
  | FConnect establish => final (FileEngine.connect establish e)
  | FTimer establish => final (fire_timer (FileEngine.connect establish) e)
  | FConnectionUpdate u f => final (FileEngine.on_connection_update u f e)
  | FCredsUpdate w => final (FileEngine.on_creds_update w e)
  | FUpsert m now o => final (FileEngine.on_messages_upsert m now o e)
  | FStatusUpdates us now => final (FileEngine.on_messages_update us now e)
  | FDisconnect logout => final (FileEngine.post_disconnect logout e)
  | FSend n m l s now o => final (FileEngine.post_send n m l s now o e)
  | FCheck n l => final (FileEngine.get_check n l e)
  | FMessages n q l => final (FileEngine.get_messages n q l e)
  | FConversations q now => final (FileEngine.get_conversations q now e)
  | FMarkRead n l r => final (FileEngine.post_mark_read n l r e)
  end.

(** Events are handled in arrival order, each handler running to completion
    before the next event is taken up. *)
Definition file_run (evs : list FileEvent) (e : Engine) : Engine :=
  foldl (fun e ev => file_step ev e) e evs.

(** What can happen to the engine of [index.js]. *)
Inductive DbEvent :=
| DConnect (version q make : Res unit)
| DTimer (version q make : Res unit)
| DConnectionUpdate (u : ConnectionUpdate) (toDataURL : string -> Res string)
| DCredsUpdate (current : Creds) (getAll : Res Keys) (q : Res unit)
| DDisconnect (logout : Res unit)
| DSend (number message : option string) (lookup : Lookup)
        (send : Res SentMessage) (now : Z) (o : HttpOutcome).

Definition db_step (JSON_stringify : AuthState -> string)
    (JSON_parse : string -> option AuthState) (ev : DbEvent) (e : Engine) : Engine :=
  match ev with
  | DConnect v q m => final (DbEngine.connect JSON_parse v q m e)
  | DTimer v q m => final (fire_timer (DbEngine.connect JSON_parse v q m) e)
  | DConnectionUpdate u f => final (DbEngine.on_connection_update u f e)
  | DCredsUpdate c g q => final (DbEngine.on_creds_update JSON_stringify c g q e)
  | DDisconnect logout => final (DbEngine.post_disconnect logout e)
  | DSend n m l s now o => final (DbEngine.post_send n m l s now o e)
  end.

Definition db_run (JSON_stringify : AuthState -> string)
    (JSON_parse : string -> option AuthState) (evs : list DbEvent) (e : Engine)
    : Engine :=
  foldl (fun e ev => db_step JSON_stringify JSON_parse ev e) e evs.

(** The record a [messages.upsert] event stores, if any, with its peer key. *)
Definition upsert_record (m : Upsert) (now : Z) : option (string * MessageData) :=
  match upsert_messages m with
  | message :: _ =>
      if String.eqb (upsert_type m) "notify"
      then Some (key_remoteJid message, FileEngine.messageData message now)
      else None
  | [] => None
  end.

(** The records stored by a run of [messages.upsert] events. *)
Definition upsert_records (evs : list (Upsert * Z * HttpOutcome))
    : list (string * MessageData) :=
  omap (fun ev => upsert_record ev.1.1 ev.1.2) evs.

Definition run_upserts (evs : list (Upsert * Z * HttpOutcome)) (e : Engine) : Engine :=
  foldl (fun e ev => final (FileEngine.on_messages_upsert ev.1.1 ev.1.2 ev.2 e)) e evs.

(** The records stored during a run of the file-session engine. *)
Definition run_records (evs : list FileEvent) : list (string * MessageData) :=
  omap (fun ev => match ev with
                  | FUpsert m now _ => upsert_record m now
                  | _ => None
                  end) evs.

(** The webhook event a status update leads to, if any. *)
Definition status_event (update : StatusUpdate) : option (string * string) :=
  match su_status update with
  | Some 3 => Some ("message_delivered", su_key_id update)
  | Some 4 => Some ("message_read", su_key_id update)
  | _ => None
  end.

(** What [io.emit] sent during a trace. *)
Definition emitted (t : list Effect) : list Emitted :=
  omap (fun x => match x with
                 | IoEmit x => Some x
                 | _ => None
                 end) t.

(** A QR artifact is held only while the status is [qr]. *)
Definition qr_only_while_scanning (e : Engine) : Prop :=
  qrCode e = None \/ status e = qr.

(** Every buffer of the messages map holds between 1 and 50 records. *)
Definition buffers_bounded (msgs : gmap string (list MessageData)) : Prop :=
  forall peer buf, msgs !! peer = Some buf -> (1 <= length buf <= 50)%nat.


(** The character [@]. *)
Definition at_sign : Ascii.ascii :=
  Ascii.Ascii false false false false false false true false.

(** The text has no [@] character. *)
Definition no_at (s : string) : Prop := Js.includes "@" s = false.

(** A text message from one peer, and a run that starts the file-session
    engine, opens the session and receives two such messages. *)
Definition sample_message (i : Z) : WAMessage :=
  {| key_remoteJid := "15550000000@s.whatsapp.net"; msg_key_id := "ABC";
     key_fromMe := None; conversation := Some "hello"; extendedText := None;
     messageTimestamp := Some i |}.

Definition sample_run : list FileEvent :=
  [FConnect (Ok {| auth_restored := false |});
   FConnectionUpdate {| connection := Some conn_open; statusCode := None;
                        upd_qr := None |} (fun raw => Ok raw);
   FUpsert {| upsert_messages := [sample_message 1]; upsert_type := "notify" |}
           0 (HttpStatus 200);
   FUpsert {| upsert_messages := [sample_message 2]; upsert_type := "notify" |}
           0 (NetworkFailure "ECONNREFUSED")].

(** * Properties *)

Ltac unfold_monad :=
  unfold result, final, trace, bind, ret, throw, try_catch, await, get, modify,
    tell, detached, call_sock, setTimeout_connect, broadcast in *.

(** ** The JavaScript operators on concrete values *)

Example display_number_individual :
  FileEngine.display_number "15550000000@s.whatsapp.net" = "15550000000".
Proof. reflexivity. Qed.

Example display_number_group :
  FileEngine.display_number "120363001234567890@g.us" = "120363001234567890".
Proof. reflexivity. Qed.

Example includes_group_marker :
  Js.includes "@g.us" "120363001234567890@g.us" = true
  /\ Js.includes "@g.us" "15550000000@s.whatsapp.net" = false.
Proof. split; reflexivity. Qed.

Example slice_from_end :
  Js.slice_from (-2) [1; 2; 3] = [2; 3]
  /\ Js.slice_from (-5) [1; 2; 3] = [1; 2; 3]
  /\ Js.slice_from 2 [1; 2; 3] = [3].
Proof. repeat split; reflexivity. Qed.

Example listConversations_skips_group :
  map cv_id
    (FileEngine.listConversations
       [("15550000000@s.whatsapp.net", []); ("120363001234567890@g.us", []);
        ("15551111111@s.whatsapp.net", [sample_record 0])] 20 0)
  = ["15550000000@s.whatsapp.net"; "15551111111@s.whatsapp.net"].
Proof. reflexivity. Qed.

(** ** Webhook delivery *)

(** In the file-session engine every call ends in the [catch] block: nothing
    is sent, one failure line is written, the caller sees a normal return. *)
Lemma file_sendWebhook_run eventType payload now o e :
  FileEngine.sendWebhook eventType payload now o e =
    (Ok tt, e,
     [ConsoleError ("Failed to send webhook: " +:+ eventType)
                   "require is not defined"]).
Proof. reflexivity. Qed.

Lemma db_sendWebhook_run eventType payload now o e :
  exists logs,
    DbEngine.sendWebhook eventType payload now o e =
      (Ok tt, e,
       AxiosPost (webhookUrl e)
         {| event_type := eventType; timestamp := now; data := payload |} 8000
       :: logs)
    /\ posts logs = []
    /\ (delivery_failed o = true -> errors_logged logs <> []).
Proof.
  unfold DbEngine.sendWebhook, axios_post. unfold_monad.
  destruct o as [c|msg]; cbn.
  - unfold default_validateStatus.
    destruct (200 <=? c) eqn:H2; destruct (c <? 300) eqn:H3; cbn;
      eexists; (split; [reflexivity|]); cbn; (split; [reflexivity|]);
      intros H4; try discriminate; lia.
  - eexists; (split; [reflexivity|]); cbn; split; auto; discriminate.
Qed.

(** The two send routes on their success path, whatever the webhook endpoint
    does. *)
Lemma file_post_send_ok e s number message found rest sent now o :
  status e = connected -> sock e = Some s ->
  Js.truthy_str number = true -> Js.truthy_str message = true ->
  ow_exists found = true ->
  FileEngine.post_send number message (Ok (Some (found :: rest))) (Ok sent) now o e
  = (Ok (json (BodySent (Some "Message sent successfully") (key_id sent))), e,
     [ConsoleError "Failed to send webhook: message_sent" "require is not defined"]).
Proof.
  intros Hst Hs Hn Hm Hex.
  unfold FileEngine.post_send. unfold_monad.
  rewrite Hst, Hn, Hm. cbn. rewrite Hs. cbn. rewrite Hex. cbn.
  rewrite Hs. cbn. reflexivity.
Qed.

Lemma db_post_send_ok e s number message found rest sent now o :
  status e = connected -> sock e = Some s ->
  Js.truthy_str number = true -> Js.truthy_str message = true ->
  ow_exists found = true ->
  let r := DbEngine.post_send number message (Ok (Some (found :: rest)))
             (Ok sent) now o e in
  result r = Ok (json (BodySent None (key_id sent)))
  /\ final r = e
  /\ webhook_events (trace r) = [("message_sent", key_id sent)].
Proof.
  intros Hst Hs Hn Hm Hex.
  destruct (db_sendWebhook_run "message_sent"
              {| wd_phone_number := number; wd_message_id := key_id sent;
                 wd_message_content := message; wd_timestamp := now |} now o e)
    as (logs & Hrun & Hposts & _).
  unfold DbEngine.post_send. unfold_monad.
  rewrite Hst, Hn, Hm. cbn. rewrite Hs. cbn. rewrite Hex. cbn.
  rewrite Hs. cbn. rewrite Hrun. cbn.
  repeat split. unfold webhook_events, posts in *. cbn.
  rewrite app_nil_r. cbn. rewrite Hposts. reflexivity.
Qed.

(** The two send routes answer 400 and touch nothing when the session is not
    connected or a field is missing. *)
Lemma post_send_rejected e number message lookup send now o :
  status e <> connected \/ Js.truthy_str number = false
    \/ Js.truthy_str message = false ->
  (exists msg, FileEngine.post_send number message lookup send now o e
               = (Ok (status_json 400 (BodyError msg)), e, []))
  /\ (exists msg, DbEngine.post_send number message lookup send now o e
                  = (Ok (status_json 400 (BodyError msg)), e, [])).
Proof.
  intros H. unfold FileEngine.post_send, DbEngine.post_send. unfold_monad.
  destruct (status e) eqn:Hst; cbn; eauto.
  destruct H as [H | [H | H]]; [congruence | |]; rewrite H; cbn; eauto.
  rewrite orb_true_r. cbn. eauto.
Qed.

(** The two send routes answer 400 without any HTTP request when the lookup
    reports that the peer does not exist. *)
Lemma post_send_absent e s number message results send now o :
  status e = connected -> sock e = Some s ->
  Js.truthy_str number = true -> Js.truthy_str message = true ->
  reports_absent results = true ->
  (exists msg, FileEngine.post_send number message (Ok results) send now o e
               = (Ok (status_json 400 (BodyError msg)), e, []))
  /\ DbEngine.post_send number message (Ok results) send now o e
     = (Ok (status_json 400 (BodyError "Invalid number")), e, []).
Proof.
  intros Hst Hs Hn Hm Habs.
  unfold FileEngine.post_send, DbEngine.post_send. unfold_monad.
  rewrite Hst, Hn, Hm. cbn. rewrite Hs. cbn.
  destruct results as [[|found rest]|]; cbn in *; eauto.
  rewrite Habs. cbn. eauto.
Qed.

(** C4.  POST /send.  In both engines a session that is not connected or a
    missing field gives HTTP 400, a lookup reporting that the peer does not
    exist gives HTTP 400 and no webhook request, and a successful send
    answers with the returned message id.  On that success path [index.js]
    issues one [message_sent] webhook request carrying the same id; the
    file-session engine issues no request at all: its [sendWebhook] stops at
    [require("axios")] and only writes a failure line. *)
Theorem post_send_contract :
  forall (e : Engine) (number message : option string) (now : Z) (o : HttpOutcome),
    (forall lookup send,
        status e <> connected \/ Js.truthy_str number = false
          \/ Js.truthy_str message = false ->
        let file := FileEngine.post_send number message lookup send now o e in
        let db := DbEngine.post_send number message lookup send now o e in
        http_code file = Some 400
        /\ http_code db = Some 400
        /\ posts (trace file) = [] /\ posts (trace db) = [])
    /\ (forall s results send,
           status e = connected -> sock e = Some s ->
           Js.truthy_str number = true -> Js.truthy_str message = true ->
           reports_absent results = true ->
           let file := FileEngine.post_send number message (Ok results) send now o e in
           let db := DbEngine.post_send number message (Ok results) send now o e in
           http_code file = Some 400
           /\ result db = Ok (status_json 400 (BodyError "Invalid number"))
           /\ posts (trace file) = [] /\ posts (trace db) = [])
    /\ (forall s found rest sent,
           status e = connected -> sock e = Some s ->
           Js.truthy_str number = true -> Js.truthy_str message = true ->
           ow_exists found = true ->
           let file := FileEngine.post_send number message
                         (Ok (Some (found :: rest))) (Ok sent) now o e in
           let db := DbEngine.post_send number message
                       (Ok (Some (found :: rest))) (Ok sent) now o e in
           result file = Ok (json (BodySent (Some "Message sent successfully")
                                            (key_id sent)))
           /\ result db = Ok (json (BodySent None (key_id sent)))
           /\ webhook_events (trace db) = [("message_sent", key_id sent)]
           /\ posts (trace file) = []
           /\ map fst (errors_logged (trace file))
              = ["Failed to send webhook: message_sent"]).
Proof.
  intros e number message now o. split; [|split].
  - intros lookup send H.
    destruct (post_send_rejected e number message lookup send now o H)
      as [[m1 H1] [m2 H2]].
    cbn zeta. unfold http_code. rewrite H1, H2. cbn. auto.
  - intros s results send Hst Hs Hn Hm Habs.
    destruct (post_send_absent e s number message results send now o
                Hst Hs Hn Hm Habs) as [[m1 H1] H2].
    cbn zeta. unfold http_code. rewrite H1, H2. cbn. auto.
  - intros s found rest sent Hst Hs Hn Hm Hex.
    destruct (db_post_send_ok e s number message found rest sent now o
                Hst Hs Hn Hm Hex) as (D1 & _ & D3).
    cbn zeta.
    rewrite (file_post_send_ok e s number message found rest sent now o
               Hst Hs Hn Hm Hex).
    repeat split; assumption.
Qed.

Lemma post_send_contract_witness :
  let file := FileEngine.post_send (Some "15551234567") (Some "hi")
                (Ok (Some [ {| ow_exists := true;
                               ow_jid := "15551234567@s.whatsapp.net" |} ]))
                (Ok {| key_id := "ABC123" |}) 0 (HttpStatus 200) connected_engine in
  let db := DbEngine.post_send (Some "15551234567") (Some "hi")
              (Ok (Some [ {| ow_exists := true;
                             ow_jid := "15551234567@s.whatsapp.net" |} ]))
              (Ok {| key_id := "ABC123" |}) 0 (HttpStatus 200) connected_engine in
  result file = Ok (json (BodySent (Some "Message sent successfully") "ABC123"))
  /\ result db = Ok (json (BodySent None "ABC123"))
  /\ webhook_events (trace db) = [("message_sent", "ABC123")]
  /\ posts (trace file) = []
  /\ map fst (errors_logged (trace file)) = ["Failed to send webhook: message_sent"].
Proof.
  destruct (post_send_contract connected_engine
              (Some "15551234567") (Some "hi") 0 (HttpStatus 200)) as (_ & _ & H).
  apply (H {| auth_restored := false |}
           {| ow_exists := true; ow_jid := "15551234567@s.whatsapp.net" |}
           [] {| key_id := "ABC123" |}); reflexivity.
Defined.

(** C6.  [sendWebhook], whatever the endpoint does.  In both engines the
    call returns normally (nothing is thrown to the caller) and leaves the
    engine untouched (no timer, nothing queued), and the callers complete:
    a successful send still answers 200, and the [messages.upsert] handler
    returns normally.  [index.js] issues exactly one HTTP request, with a
    timeout of 8 seconds, and writes a status outside 200-299 or a network
    failure with [console.error].  The file-session engine issues no HTTP
    request: the call stops at [require("axios")] and writes one failure
    line, also when the endpoint would have accepted the event. *)
Theorem sendWebhook_best_effort :
  forall (eventType : string) (payload : WebhookData) (now : Z)
         (o : HttpOutcome) (e : Engine),
    let file := FileEngine.sendWebhook eventType payload now o e in
    let db := DbEngine.sendWebhook eventType payload now o e in
    (result file = Ok tt /\ result db = Ok tt)
    /\ (final file = e /\ final db = e)
    /\ post_timeouts (trace db) = [8000]
    /\ (delivery_failed o = true -> errors_logged (trace db) <> [])
    /\ posts (trace file) = []
    /\ map fst (errors_logged (trace file))
       = ["Failed to send webhook: " +:+ eventType]
    /\ (forall s number message found rest sent,
           status e = connected -> sock e = Some s ->
           Js.truthy_str number = true -> Js.truthy_str message = true ->
           ow_exists found = true ->
           http_code (FileEngine.post_send number message
                        (Ok (Some (found :: rest))) (Ok sent) now o e) = Some 200
           /\ http_code (DbEngine.post_send number message
                           (Ok (Some (found :: rest))) (Ok sent) now o e) = Some 200)
    /\ (forall m, result (FileEngine.on_messages_upsert m now o e) = Ok tt).
Proof.
  intros eventType payload now o e.
  destruct (db_sendWebhook_run eventType payload now o e) as (l2 & D & Dp & Df).
  cbn zeta. rewrite file_sendWebhook_run, D. repeat apply conj.
  - reflexivity.
  - reflexivity.
  - reflexivity.
  - reflexivity.
  - unfold post_timeouts, posts in *. cbn. rewrite Dp. reflexivity.
  - intros H. cbn. apply Df. exact H.
  - reflexivity.
  - reflexivity.
  - intros s number message found rest sent Hst Hs Hn Hm Hex.
    destruct (db_post_send_ok e s number message found rest sent now o
                Hst Hs Hn Hm Hex) as (D1 & _).
    unfold http_code. cbn zeta in D1. rewrite D1.
    rewrite (file_post_send_ok e s number message found rest sent now o
               Hst Hs Hn Hm Hex).
    auto.
  - intros m. unfold FileEngine.on_messages_upsert.
    destruct (upsert_messages m) as [|message rest]; [reflexivity|].
    destruct (String.eqb (upsert_type m) "notify"); [|reflexivity].
    unfold_monad. cbn.
    destruct (Js.or_false (key_fromMe message)); reflexivity.
Qed.

Lemma sendWebhook_best_effort_witness :
  errors_logged
    (trace (DbEngine.sendWebhook "message_sent"
              {| wd_phone_number := Some "15551234567"; wd_message_id := "ABC123";
                 wd_message_content := Some "hi"; wd_timestamp := 0 |}
              0 (NetworkFailure "ECONNREFUSED") connected_engine)) <> []
  /\ http_code (FileEngine.post_send (Some "15551234567") (Some "hi")
                  (Ok (Some [ {| ow_exists := true;
                                 ow_jid := "15551234567@s.whatsapp.net" |} ]))
                  (Ok {| key_id := "ABC123" |}) 0
                  (NetworkFailure "ECONNREFUSED") connected_engine) = Some 200
  /\ http_code (DbEngine.post_send (Some "15551234567") (Some "hi")
                  (Ok (Some [ {| ow_exists := true;
                                 ow_jid := "15551234567@s.whatsapp.net" |} ]))
                  (Ok {| key_id := "ABC123" |}) 0
                  (NetworkFailure "ECONNREFUSED") connected_engine) = Some 200.
Proof.
  destruct (sendWebhook_best_effort "message_sent"
              {| wd_phone_number := Some "15551234567"; wd_message_id := "ABC123";
                 wd_message_content := Some "hi"; wd_timestamp := 0 |}
              0 (NetworkFailure "ECONNREFUSED") connected_engine)
    as (_ & _ & _ & Hlog & _ & _ & Hsend & _).
  split.
  - apply Hlog. reflexivity.
  - apply (Hsend {| auth_restored := false |} (Some "15551234567") (Some "hi")
             {| ow_exists := true; ow_jid := "15551234567@s.whatsapp.net" |}
             [] {| key_id := "ABC123" |}); reflexivity.
Defined.

(** ** GET /check/:number *)

(** C10.  GET /check/:number on a connected session: a lookup that returns
    no results is answered with HTTP 200 and the body
    [{exists: false, message: "Invalid number format"}]; the route answers
    500 exactly when the lookup threw, and 200 otherwise. *)
Theorem get_check_no_results_is_200 :
  forall (e : Engine) (s : Sock) (number : string) (lookup : Lookup),
    status e = connected -> sock e = Some s ->
    let r := FileEngine.get_check number lookup e in
    (forall results, lookup = Ok results -> no_results results = true ->
       result r = Ok (json (BodyCheck false None "Invalid number format")))
    /\ (http_code r = Some 500 <-> exists x, lookup = Err x)
    /\ (http_code r = Some 200 <-> exists results, lookup = Ok results).
Proof.
  intros e s number lookup Hst Hs. unfold FileEngine.get_check, http_code.
  unfold_monad. rewrite Hst. cbn. rewrite Hs.
  destruct lookup as [[[|found rest]|]|x]; cbn; repeat split;
    try (intros results [= <-]); try discriminate; eauto;
    try (intros [y [=]]); try (intros [=]); eauto.
Qed.

Lemma get_check_no_results_is_200_witness :
  result (FileEngine.get_check "abc" (Ok (Some [])) connected_engine)
  = Ok (json (BodyCheck false None "Invalid number format")).
Proof.
  destruct (get_check_no_results_is_200 connected_engine
              {| auth_restored := false |} "abc" (Ok (Some []))
              eq_refl eq_refl) as (H & _ & _).
  apply (H (Some [])); reflexivity.
Defined.

(** ** Reconnection timers *)

Lemma file_close_update cause f e :
  FileEngine.on_connection_update (closed cause) f e =
    (Ok tt,
     set_qrCode None
       (set_status disconnected
          (set_timers (timers e ++ (if is_logout cause then [] else [3000])) e)),
     [IoEmit (EmStatus disconnected); IoEmit (EmQr None)]).
Proof.
  unfold FileEngine.on_connection_update, closed, shouldReconnect, is_logout.
  unfold_monad. cbn.
  destruct cause as [c|]; [destruct (c =? DisconnectReason_loggedOut)|]; cbn;
    rewrite ?app_nil_r; reflexivity.
Qed.

Lemma db_close_update cause f e :
  DbEngine.on_connection_update (closed cause) f e =
    (Ok tt,
     set_qrCode None
       (set_status disconnected
          (set_timers (timers e ++ (if is_logout cause then [] else [3000])) e)),
     [IoEmit (EmStatus disconnected); IoEmit (EmQr None)]).
Proof.
  unfold DbEngine.on_connection_update, closed, shouldReconnect, is_logout.
  unfold_monad. cbn.
  destruct cause as [c|]; [destruct (c =? DisconnectReason_loggedOut)|]; cbn;
    rewrite ?app_nil_r; reflexivity.
Qed.

(** The pending timers after a run of close events, for any handler that
    treats one close event as the two engines do. *)
Lemma run_closed_timers (handler : ConnectionUpdate -> M unit) :
  (forall cause e,
      timers (final (handler (closed cause) e))
      = timers e ++ (if is_logout cause then [] else [3000])) ->
  forall causes e,
    timers (run_updates handler (map closed causes) e)
    = timers e ++ replicate (length (filter (fun c => is_logout c = false) causes)) 3000.
Proof.
  intros Hstep causes. unfold run_updates.
  induction causes as [|c causes IH]; intros e; cbn.
  - by rewrite app_nil_r.
  - rewrite IH, Hstep.
    destruct (is_logout c) eqn:Hc.
    + rewrite decide_False by discriminate. by rewrite app_nil_r.
    + rewrite decide_True by reflexivity. cbn. by rewrite <- app_assoc.
Qed.

(** C1, as the code has it.  Every connection-closed event whose cause is
    not an explicit logout schedules one reconnection timer of 3 seconds, and
    one whose cause is a logout schedules none; pending timers are not
    merged.  After a run of close events the pending timers are those
    pending before, followed by one 3-second timer per delivered event that
    was not caused by a logout. *)
Theorem one_reconnect_timer_per_close_event :
  forall (causes : list (option Z)) (f : string -> Res string) (e : Engine),
    let n := length (filter (fun c => is_logout c = false) causes) in
    timers (run_updates (fun u => FileEngine.on_connection_update u f)
              (map closed causes) e) = timers e ++ replicate n 3000
    /\ timers (run_updates (fun u => DbEngine.on_connection_update u f)
                 (map closed causes) e) = timers e ++ replicate n 3000.
Proof.
  intros causes f e. split; apply run_closed_timers; intros cause e'.
  - by rewrite file_close_update.
  - by rewrite db_close_update.
Qed.

(** C1, as stated, fails: the same drop reported twice in succession (status
    code 428, connection closed) leaves two reconnection timers pending,
    in either engine. *)
Lemma close_delivered_twice_stacks_timers :
  let url := "http://localhost:8000/webhook/whatsapp" in
  let drop_twice := [closed (Some 428); closed (Some 428)] in
  let file := run_updates (fun u => FileEngine.on_connection_update u (fun raw => Ok raw))
                drop_twice (new_engine url) in
  let db := run_updates (fun u => DbEngine.on_connection_update u (fun raw => Ok raw))
              drop_twice (new_engine url) in
  Forall (fun u => shouldReconnect u = true) drop_twice
  /\ timers (new_engine url) = []
  /\ timers file = [3000; 3000] /\ timers db = [3000; 3000]
  /\ ~ (length (timers file) <= 1)%nat /\ ~ (length (timers db) <= 1)%nat.
Proof.
  cbn zeta. repeat apply conj; try reflexivity.
  - repeat constructor.
  - cbn. lia.
  - cbn. lia.
Qed.

(** ** POST /disconnect *)

(** The file-session engine on a connected session: logout is issued, the
    in-memory state is cleared, the session directory is removed, and a
    reconnection is scheduled one second later, whether or not the logout
    call succeeded. *)
Lemma file_disconnect_schedules_reconnect e s logout :
  sock e = Some s -> status e = connected ->
  let r := FileEngine.post_disconnect logout e in
  (exists msg, result r = Ok (json (BodySuccess true msg)))
  /\ SockLogout ∈ trace r
  /\ sock (final r) = None /\ status (final r) = disconnected
  /\ qrCode (final r) = None /\ sessionDir (final r) = false
  /\ timers (final r) = timers e ++ [1000].
Proof.
  intros Hs Hst. unfold FileEngine.post_disconnect, FileEngine.cleanup.
  unfold_monad. rewrite Hs, Hst. cbn.
  destruct logout as [[]|x]; cbn; destruct (sessionDir e) eqn:Hd; cbn;
    repeat split; eauto; set_solver.
Qed.

(** When such a timer fires, [connect] runs and opens a new socket. *)
Lemma file_timer_reconnects e d rest s :
  timers e = d :: rest ->
  let r := fire_timer (FileEngine.connect (Ok s)) e in
  sock (final r) = Some s /\ timers (final r) = rest.
Proof.
  intros Ht. unfold fire_timer, FileEngine.connect. unfold_monad.
  rewrite Ht. cbn. auto.
Qed.

(** C7 on [index.js].  POST /disconnect on a connected session issues the
    logout and clears the in-memory state, but schedules nothing: the pending
    timers are those pending before, and the close event the logout produces
    (cause: logged out) schedules none either.  With no timer pending the
    engine stays without a socket. *)
Theorem db_disconnect_schedules_no_reconnect :
  forall (e : Engine) (s : Sock) (f : string -> Res string),
    sock e = Some s -> status e = connected ->
    let r := DbEngine.post_disconnect (Ok tt) e in
    let after := final (DbEngine.on_connection_update
                          (closed (Some DisconnectReason_loggedOut)) f (final r)) in
    result r = Ok (json (BodySuccess true "Disconnected"))
    /\ SockLogout ∈ trace r
    /\ sock (final r) = None /\ status (final r) = disconnected
    /\ qrCode (final r) = None
    /\ timers (final r) = timers e
    /\ timers after = timers e /\ sock after = None /\ status after = disconnected.
Proof.
  intros e s f Hs Hst. cbn zeta. rewrite db_close_update.
  unfold DbEngine.post_disconnect, DbEngine.cleanup.
  unfold_monad. rewrite Hs, Hst. cbn. rewrite app_nil_r.
  repeat split; set_solver.
Qed.

Lemma db_disconnect_schedules_no_reconnect_witness :
  let r := DbEngine.post_disconnect (Ok tt) connected_engine in
  sock (final r) = None /\ status (final r) = disconnected /\ timers (final r) = [].
Proof.
  destruct (db_disconnect_schedules_no_reconnect connected_engine
              {| auth_restored := false |} (fun raw => Ok raw) eq_refl eq_refl)
    as (_ & _ & H1 & H2 & _ & H3 & _).
  cbn zeta. rewrite H1, H2, H3. repeat split.
Defined.

(** ** The message archive *)

Lemma archive_message_lookup jid md msgs :
  FileEngine.archive_message jid md msgs !! jid
  = Some (FileEngine.push_evict (default [] (msgs !! jid)) md).
Proof.
  unfold FileEngine.archive_message.
  rewrite lookup_insert_eq. destruct (msgs !! jid) eqn:H; cbn.
  - rewrite H. reflexivity.
  - rewrite lookup_insert_eq. reflexivity.
Qed.

Lemma archive_message_lookup_ne jid p md msgs :
  jid <> p -> FileEngine.archive_message jid md msgs !! p = msgs !! p.
Proof.
  intros Hne. unfold FileEngine.archive_message.
  rewrite lookup_insert_ne by done.
  destruct (msgs !! jid); [done|]. by rewrite lookup_insert_ne.
Qed.

Lemma tail_drop {A} (n : nat) (l : list A) : tail (drop n l) = drop (S n) l.
Proof.
  revert l. induction n as [|n IH]; intros [|x l]; cbn; auto.
Qed.

Lemma push_evict_last_n (x : list MessageData) md :
  FileEngine.push_evict (last_n 50 x) md = last_n 50 (x ++ [md]).
Proof.
  unfold FileEngine.push_evict, last_n, Js.shift.
  rewrite !length_app, length_drop. cbn [length].
  match goal with |- context [50 <? ?a] => destruct (Z.ltb_spec 50 a) end.
  - rewrite drop_app_le by lia.
    replace (length x + 1 - 50)%nat with (S (length x - 50)) by lia.
    rewrite <- tail_drop.
    destruct (drop (length x - 50) x) eqn:Hd; [|done].
    apply (f_equal length) in Hd. rewrite length_drop in Hd. cbn in Hd. lia.
  - replace (length x - 50)%nat with 0%nat by lia.
    replace (length x + 1 - 50)%nat with 0%nat by lia.
    by rewrite !drop_0.
Qed.

Lemma foldl_push_evict (l : list MessageData) :
  foldl FileEngine.push_evict [] l = last_n 50 l.
Proof.
  induction l as [|a l IH] using rev_ind; [done|].
  rewrite foldl_app. cbn. rewrite IH. apply push_evict_last_n.
Qed.

Lemma archive_all_lookup rs p msgs :
  default [] (archive_all rs msgs !! p)
  = foldl FileEngine.push_evict (default [] (msgs !! p)) (arrived_for p rs).
Proof.
  unfold archive_all, arrived_for. revert msgs.
  induction rs as [|[jid md] rs IH]; intros msgs;
    cbn -[FileEngine.archive_message]; [done|].
  rewrite IH. destruct (decide (jid = p)) as [->|Hne];
    cbn -[FileEngine.archive_message].
  - by rewrite archive_message_lookup.
  - by rewrite archive_message_lookup_ne.
Qed.

Lemma last_n_length {A} k (l : list A) : length (last_n k l) = (length l `min` k)%nat.
Proof. unfold last_n. rewrite length_drop. lia. Qed.

Lemma last_n_last_n {A} a b (l : list A) :
  last_n a (last_n b l) = last_n (a `min` b) l.
Proof.
  unfold last_n. rewrite length_drop, drop_drop. f_equal. lia.
Qed.

Lemma slice_from_neg {A} (k : Z) (l : list A) :
  1 <= k -> Js.slice_from (- k) l = last_n (Z.to_nat k) l.
Proof.
  intros Hk. unfold Js.slice_from, last_n.
  destruct (Z.ltb_spec (- k) 0); [|lia]. f_equal. lia.
Qed.

Lemma recent_archive_all rs p limit :
  1 <= limit ->
  FileEngine.recent (archive_all rs ∅) p limit
  = last_n (Z.to_nat limit `min` 50) (arrived_for p rs).
Proof.
  intros H. unfold FileEngine.recent.
  rewrite archive_all_lookup, lookup_empty. cbn.
  rewrite foldl_push_evict, slice_from_neg by done.
  apply last_n_last_n.
Qed.

(** C3, as the code has it.  For every peer and every sequence of stored
    records, the peer's buffer holds the last 50 records that arrived for it
    (at most 50, oldest dropped first), and reading recent history with a
    limit of at least 1 returns the last min(N, 50, limit) of the N records
    that arrived, in arrival order: all N when N is at most 50 and at most
    the limit, and the last 50 when the limit is 50 and N exceeds 50. *)
Theorem recent_returns_last_of_capped_buffer :
  forall (rs : list (string * MessageData)) (peer : string) (limit : Z),
    1 <= limit ->
    let arrived := arrived_for peer rs in
    let N := length arrived in
    let archive := archive_all rs ∅ in
    let buffer := default [] (archive !! peer) in
    (length buffer <= 50)%nat
    /\ buffer = last_n 50 arrived
    /\ FileEngine.recent archive peer limit
       = last_n ((N `min` 50) `min` Z.to_nat limit) arrived
    /\ ((N <= 50)%nat -> Z.of_nat N <= limit ->
        FileEngine.recent archive peer limit = arrived)
    /\ ((50 < N)%nat -> FileEngine.recent archive peer 50 = last_n 50 arrived).
Proof.
  intros rs peer limit Hl. cbn zeta.
  assert (Hbuf : default [] (archive_all rs ∅ !! peer)
                 = last_n 50 (arrived_for peer rs)).
  { rewrite archive_all_lookup, lookup_empty. apply foldl_push_evict. }
  rewrite Hbuf, last_n_length, !recent_archive_all by lia.
  repeat apply conj.
  - lia.
  - reflexivity.
  - unfold last_n. f_equal. lia.
  - intros HN HNl. unfold last_n.
    replace (_ - _)%nat with 0%nat by lia. apply drop_0.
  - intros _. reflexivity.
Qed.

Lemma recent_returns_last_of_capped_buffer_witness :
  FileEngine.recent (archive_all (sample_arrivals 3) ∅)
    "15550000000@s.whatsapp.net" 20
  = [sample_record 0; sample_record 1; sample_record 2].
Proof.
  destruct (recent_returns_last_of_capped_buffer (sample_arrivals 3)
              "15550000000@s.whatsapp.net" 20 ltac:(lia)) as (_ & _ & _ & H & _).
  apply H; vm_compute; [lia | discriminate].
Defined.

(** C3, as stated, fails for a limit above the capacity: after 51 records
    from one peer, reading with limit 51 returns 50 records, not the last
    min(51, 51) = 51. *)
Lemma recent_capped_below_limit :
  let peer := "15550000000@s.whatsapp.net" in
  let rs := sample_arrivals 51 in
  let arrived := arrived_for peer rs in
  length arrived = 51%nat
  /\ length (FileEngine.recent (archive_all rs ∅) peer 51) = 50%nat
  /\ FileEngine.recent (archive_all rs ∅) peer 51
     <> last_n (length arrived `min` Z.to_nat 51) arrived.
Proof.
  cbn zeta. split; [|split].
  - vm_compute. reflexivity.
  - vm_compute. reflexivity.
  - intros H. apply (f_equal length) in H. vm_compute in H. discriminate.
Qed.

(** ** The [messages.upsert] handler *)

Lemma Map_get_set {V} (k : string) (v : V) (m : list (string * V)) :
  Js.Map_get k (Js.Map_set k v m) = Some v.
Proof.
  induction m as [|[k' v'] m IH]; cbn.
  - by rewrite String.eqb_refl.
  - destruct (String.eqb k' k) eqn:Hk; cbn; rewrite Hk; [done | apply IH].
Qed.

Lemma push_evict_snoc (buf : list MessageData) (md : MessageData) :
  exists older, FileEngine.push_evict buf md = older ++ [md].
Proof.
  unfold FileEngine.push_evict, Js.shift. cbn zeta.
  destruct buf as [|b buf]; [by exists []|].
  destruct (50 <? _); [by exists buf | by exists (b :: buf)].
Qed.

Lemma messageText_cases message :
  FileEngine.messageText message
  = (if Js.truthy_str (conversation message)
     then default "" (conversation message)
     else if Js.truthy_str (extendedText message)
          then default "" (extendedText message)
          else "[Media/Other]").
Proof.
  unfold FileEngine.messageText, Js.or_str.
  destruct (conversation message) as [[|a c]|],
           (extendedText message) as [[|b x]|]; reflexivity.
Qed.

(** A [notify] event with a first message: what the handler does. *)
Lemma upsert_notify_run e m message rest now o :
  upsert_messages m = message :: rest -> upsert_type m = "notify" ->
  let md := FileEngine.messageData message now in
  let jid := key_remoteJid message in
  FileEngine.on_messages_upsert m now o e
  = (Ok tt,
     set_conversations (FileEngine.archive_conversation jid md (conversations e))
       (set_messages (FileEngine.archive_message jid md (messages e)) e),
     IoEmit (EmNewMessage md)
     :: (if md_fromMe md then []
         else [ConsoleError "Failed to send webhook: message_received"
                            "require is not defined"])
     ++ [ConsoleLog ("New message from " +:+ md_from md +:+ ": "
                     +:+ md_message md)]).
Proof.
  intros Hm Ht. unfold FileEngine.on_messages_upsert. rewrite Hm, Ht.
  cbn -[FileEngine.archive_message FileEngine.archive_conversation
        FileEngine.sendWebhook FileEngine.messageData].
  unfold_monad.
  cbn -[FileEngine.archive_message FileEngine.archive_conversation
        FileEngine.sendWebhook FileEngine.messageData].
  destruct (md_fromMe (FileEngine.messageData message now)) eqn:Hme;
    cbn -[FileEngine.archive_message FileEngine.archive_conversation
          FileEngine.sendWebhook FileEngine.messageData].
  - reflexivity.
  - rewrite file_sendWebhook_run. reflexivity.
Qed.

(** An event that is not of type [notify], or that carries no message, is
    ignored. *)
Lemma upsert_ignored e m now o :
  upsert_messages m = [] \/ upsert_type m <> "notify" ->
  FileEngine.on_messages_upsert m now o e = (Ok tt, e, []).
Proof.
  intros H. unfold FileEngine.on_messages_upsert.
  destruct (upsert_messages m) as [|message rest]; [reflexivity|].
  destruct H as [H|H]; [discriminate|].
  destruct (String.eqb_spec (upsert_type m) "notify"); [contradiction | reflexivity].
Qed.

(** C5.  A [messages.upsert] event of type [notify], handled by the
    file-session engine.  The record derived from the first message has the
    plain text body when there is one and the placeholder [Media/Other]
    otherwise; it is stored last under the peer key in both archives and
    sent once to the push subscribers.  The handler does nothing else: the
    further messages of the event are neither stored nor sent on (the event
    is handled as if it carried its first message alone), and no HTTP
    request is made, whatever [fromMe] is: a record with [fromMe] true does
    not reach [sendWebhook], and for a record with [fromMe] false the call
    stops at [require("axios")] and writes one failure line. *)
Theorem message_received_fanout :
  forall (e : Engine) (m : Upsert) (message : WAMessage) (rest : list WAMessage)
         (now : Z) (o : HttpOutcome),
    upsert_messages m = message :: rest -> upsert_type m = "notify" ->
    let md := FileEngine.messageData message now in
    let jid := key_remoteJid message in
    let r := FileEngine.on_messages_upsert m now o e in
    result r = Ok tt
    /\ md_message md
       = (if Js.truthy_str (conversation message)
          then default "" (conversation message)
          else if Js.truthy_str (extendedText message)
               then default "" (extendedText message)
               else "[Media/Other]")
    /\ md_fromMe md = Js.or_false (key_fromMe message)
    /\ (exists older, messages (final r) !! jid = Some (older ++ [md]))
    /\ (exists older, Js.Map_get jid (conversations (final r)) = Some (older ++ [md]))
    /\ new_messages (trace r) = [md]
    /\ r = FileEngine.on_messages_upsert
             {| upsert_messages := [message]; upsert_type := "notify" |} now o e
    /\ posts (trace r) = []
    /\ map fst (errors_logged (trace r))
       = (if md_fromMe md then []
          else ["Failed to send webhook: message_received"]).
Proof.
  intros e m message rest now o Hm Ht. cbn zeta.
  rewrite (upsert_notify_run e m message rest now o Hm Ht).
  rewrite (upsert_notify_run e {| upsert_messages := [message];
                                   upsert_type := "notify" |} message [] now o
             eq_refl eq_refl).
  cbn zeta. unfold result, final, trace.
  cbn [fst snd messages conversations set_messages set_conversations].
  repeat apply conj; try reflexivity.
  - apply messageText_cases.
  - rewrite archive_message_lookup.
    destruct (push_evict_snoc (default [] (messages e !! key_remoteJid message))
                (FileEngine.messageData message now)) as [older ->].
    by exists older.
  - unfold FileEngine.archive_conversation. rewrite Map_get_set. eauto.
  - by destruct (md_fromMe _).
  - by destruct (md_fromMe _).
  - by destruct (md_fromMe _).
Qed.

Lemma message_received_fanout_witness :
  let first := {| key_remoteJid := "15550000000@s.whatsapp.net";
                  msg_key_id := "ABC123"; key_fromMe := Some false;
                  conversation := Some "hello"; extendedText := None;
                  messageTimestamp := Some 1700000000 |} in
  let second := {| key_remoteJid := "15551111111@s.whatsapp.net";
                   msg_key_id := "DEF456"; key_fromMe := Some false;
                   conversation := Some "again"; extendedText := None;
                   messageTimestamp := Some 1700000001 |} in
  let m := {| upsert_messages := [first; second]; upsert_type := "notify" |} in
  let r := FileEngine.on_messages_upsert m 0 (HttpStatus 200) connected_engine in
  new_messages (trace r) = [FileEngine.messageData first 0]
  /\ posts (trace r) = []
  /\ map fst (errors_logged (trace r)) = ["Failed to send webhook: message_received"].
Proof.
  cbn zeta.
  destruct (message_received_fanout connected_engine
              {| upsert_messages :=
                   [ {| key_remoteJid := "15550000000@s.whatsapp.net";
                        msg_key_id := "ABC123"; key_fromMe := Some false;
                        conversation := Some "hello"; extendedText := None;
                        messageTimestamp := Some 1700000000 |};
                     {| key_remoteJid := "15551111111@s.whatsapp.net";
                        msg_key_id := "DEF456"; key_fromMe := Some false;
                        conversation := Some "again"; extendedText := None;
                        messageTimestamp := Some 1700000001 |} ];
                 upsert_type := "notify" |}
              {| key_remoteJid := "15550000000@s.whatsapp.net";
                 msg_key_id := "ABC123"; key_fromMe := Some false;
                 conversation := Some "hello"; extendedText := None;
                 messageTimestamp := Some 1700000000 |}
              [ {| key_remoteJid := "15551111111@s.whatsapp.net";
                   msg_key_id := "DEF456"; key_fromMe := Some false;
                   conversation := Some "again"; extendedText := None;
                   messageTimestamp := Some 1700000001 |} ]
              0 (HttpStatus 200) eq_refl eq_refl)
    as (_ & _ & _ & _ & _ & H1 & _ & H2 & H3).
  split; [exact H1 | split; [exact H2 | exact H3]].
Defined.

(** ** GET /conversations *)

Lemma conversations_loop_ids limit now entries count acc :
  map cv_id (FileEngine.conversations_loop limit now entries count acc)
  = map cv_id acc
    ++ take (Z.to_nat (limit - count)) (filter individual (map fst entries)).
Proof.
  revert count acc.
  induction entries as [|[jid msgs] entries IH]; intros count acc;
    cbn -[filter].
  - by rewrite filter_nil, take_nil, app_nil_r.
  - destruct (Z.leb_spec limit count) as [Hle|Hlt].
    + replace (Z.to_nat (limit - count)) with 0%nat by lia.
      by rewrite take_0, app_nil_r.
    + rewrite filter_cons. destruct (decide (individual jid)) as [Hi|Hi].
      * unfold individual in Hi. rewrite Hi. cbn -[filter].
        rewrite IH, map_app. cbn -[filter].
        replace (Z.to_nat (limit - count))
          with (S (Z.to_nat (limit - (count + 1)))) by lia.
        cbn -[filter]. by rewrite <- app_assoc.
      * unfold individual in Hi.
        destruct (Js.includes "@g.us" jid); [|done]. cbn -[filter]. apply IH.
Qed.

Lemma conversations_loop_not_group limit now entries count acc :
  Forall (fun c => individual (cv_id c) /\ cv_isGroup c = false) acc ->
  Forall (fun c => individual (cv_id c) /\ cv_isGroup c = false)
    (FileEngine.conversations_loop limit now entries count acc).
Proof.
  revert count acc.
  induction entries as [|[jid msgs] entries IH]; intros count acc Hacc; cbn;
    [done|].
  destruct (limit <=? count); [done|].
  destruct (Js.includes "@g.us" jid) eqn:Hg; cbn; apply IH; [done|].
  apply Forall_app. split; [done|]. by repeat constructor.
Qed.

Lemma Map_has_keys {V} (k : string) (m : list (string * V)) :
  Js.Map_has k m = bool_decide (k ∈ map fst m).
Proof.
  unfold Js.Map_has. induction m as [|[k' v] m IH]; cbn; [done|].
  destruct (String.eqb_spec k' k) as [->|Hne].
  - symmetry. apply bool_decide_eq_true. apply list_elem_of_here.
  - rewrite IH. apply bool_decide_ext. rewrite elem_of_cons.
    split; [by right | intros [Heq|Hin]; [congruence | done]].
Qed.

Lemma Map_set_keys {V} (k : string) (v : V) (m : list (string * V)) :
  map fst (Js.Map_set k v m)
  = if Js.Map_has k m then map fst m else map fst m ++ [k].
Proof.
  unfold Js.Map_has. induction m as [|[k' v'] m IH]; cbn; [done|].
  destruct (String.eqb k' k); cbn; [done|].
  rewrite IH. by destruct (Js.Map_get k m).
Qed.

Lemma archive_conversation_keys jid md convs :
  map fst (FileEngine.archive_conversation jid md convs)
  = if bool_decide (jid ∈ map fst convs) then map fst convs
    else map fst convs ++ [jid].
Proof.
  unfold FileEngine.archive_conversation.
  rewrite Map_set_keys. rewrite <- (Map_has_keys jid convs).
  destruct (Js.Map_has jid convs) eqn:Hh; [by rewrite Hh|].
  rewrite Map_set_keys, Hh.
  unfold Js.Map_has. by rewrite Map_get_set.
Qed.

Lemma archive_all_conversations_keys rs convs :
  map fst (archive_all_conversations rs convs)
  = map fst convs ++ first_seen (map fst convs) (map fst rs).
Proof.
  unfold archive_all_conversations. revert convs.
  induction rs as [|[jid md] rs IH]; intros convs;
    cbn -[FileEngine.archive_conversation]; [by rewrite app_nil_r|].
  rewrite IH, archive_conversation_keys.
  destruct (bool_decide (jid ∈ map fst convs)); [done|].
  by rewrite <- app_assoc.
Qed.

(** C8.  For every set of known peers and every limit, [listConversations]
    returns at most [limit] summaries (none for a limit below 1); the
    summaries follow the iteration order of the conversations map, which is
    the order in which the peers were first seen; and no summary belongs to a
    peer whose identifier contains the group marker. *)
Theorem listConversations_bounded_ordered_individual :
  forall (convs : list (string * list MessageData)) (limit now : Z),
    let cs := FileEngine.listConversations convs limit now in
    Z.of_nat (length cs) <= Z.max 0 limit
    /\ map cv_id cs = take (Z.to_nat limit) (filter individual (map fst convs))
    /\ Forall (fun c => individual (cv_id c) /\ cv_isGroup c = false) cs
    /\ (forall rs : list (string * MessageData),
           map cv_id (FileEngine.listConversations
                        (archive_all_conversations rs []) limit now)
           = take (Z.to_nat limit)
               (filter individual (first_seen [] (map fst rs)))).
Proof.
  intros convs limit now. cbn zeta. unfold FileEngine.listConversations.
  assert (Hids : forall cv,
             map cv_id (FileEngine.conversations_loop limit now cv 0 [])
             = take (Z.to_nat limit) (filter individual (map fst cv))).
  { intros cv. rewrite conversations_loop_ids. cbn. by rewrite Z.sub_0_r. }
  repeat apply conj.
  - rewrite <- (length_map cv_id), Hids, length_take. lia.
  - apply Hids.
  - by apply conversations_loop_not_group.
  - intros rs. by rewrite Hids, archive_all_conversations_keys.
Qed.

(** ** The credential store *)

Lemma rows_for_cons sid r l a :
  DbStore.rows_for sid {| rows := r :: l; auto_increment := a |}
  = ((if decide (session_id r = sid) then 1 else 0)
     + DbStore.rows_for sid {| rows := l; auto_increment := a |})%nat.
Proof.
  unfold DbStore.rows_for. cbn [rows]. rewrite filter_cons.
  by destruct (decide (session_id r = sid)).
Qed.

Lemma has_session_rows_for sid t :
  DbStore.has_session sid t = false <-> DbStore.rows_for sid t = 0%nat.
Proof.
  destruct t as [l a]. unfold DbStore.has_session. cbn [rows].
  induction l as [|r l IH]; [done|].
  rewrite rows_for_cons. cbn [existsb].
  destruct (String.eqb_spec (session_id r) sid) as [Heq|Hne].
  - rewrite decide_True by done. cbn. split; [discriminate | lia].
  - rewrite decide_False by done. cbn. apply IH.
Qed.

Lemma rows_for_update sid json sid' l a :
  DbStore.rows_for sid'
    {| rows := map (fun r => if String.eqb (session_id r) sid
                             then {| row_id := row_id r;
                                     session_id := session_id r;
                                     row_data := json |}
                             else r) l;
       auto_increment := a |}
  = DbStore.rows_for sid' {| rows := l; auto_increment := a |}.
Proof.
  induction l as [|r l IH]; [done|].
  rewrite map_cons, !rows_for_cons, IH.
  by destruct (String.eqb (session_id r) sid).
Qed.

Lemma rows_for_app sid l1 l2 a :
  DbStore.rows_for sid {| rows := l1 ++ l2; auto_increment := a |}
  = (DbStore.rows_for sid {| rows := l1; auto_increment := a |}
     + DbStore.rows_for sid {| rows := l2; auto_increment := a |})%nat.
Proof.
  unfold DbStore.rows_for. cbn [rows]. by rewrite filter_app, length_app.
Qed.

Lemma rows_for_insert sid json sid' t :
  DbStore.rows_for sid' (DbStore.insert_on_duplicate_key_update sid json t)
  = if decide (sid' = sid)
    then (1 `max` DbStore.rows_for sid t)%nat
    else DbStore.rows_for sid' t.
Proof.
  unfold DbStore.insert_on_duplicate_key_update.
  destruct (DbStore.has_session sid t) eqn:Hh.
  - assert (Hpos : DbStore.rows_for sid t <> 0%nat).
    { intros H0. apply has_session_rows_for in H0. congruence. }
    destruct t as [l a]. cbn [rows auto_increment].
    rewrite rows_for_update.
    destruct (decide (sid' = sid)) as [->|]; [lia | done].
  - apply has_session_rows_for in Hh.
    destruct t as [l a]. cbn [rows auto_increment].
    rewrite (rows_for_app sid' l _ (a + 1)), rows_for_cons.
    unfold DbStore.rows_for in *. cbn [rows session_id] in *.
    rewrite filter_nil. cbn [length].
    destruct (decide (sid' = sid)) as [->|Hne].
    + rewrite decide_True by done. lia.
    + rewrite decide_False by done. lia.
Qed.

Lemma rows_for_delete sid sid' t :
  DbStore.rows_for sid' (DbStore.delete_where sid t)
  = if decide (sid' = sid) then 0%nat else DbStore.rows_for sid' t.
Proof.
  destruct t as [l a]. unfold DbStore.delete_where. cbn [rows auto_increment].
  induction l as [|r l IH]; [by destruct (decide _)|].
  rewrite filter_cons, (rows_for_cons sid' r l).
  destruct (decide (session_id r <> sid)) as [Hk|Hk].
  - rewrite rows_for_cons, IH.
    destruct (decide (sid' = sid)) as [->|Hd]; [|done].
    by rewrite decide_False.
  - rewrite IH. destruct (decide (sid' = sid)) as [->|Hd]; [done|].
    rewrite decide_False; [done|].
    intros Heq. apply Hk. congruence.
Qed.

Lemma select_data_absent sid t :
  DbStore.rows_for sid t = 0%nat -> DbStore.select_data sid t = [].
Proof.
  unfold DbStore.rows_for, DbStore.select_data.
  destruct (filter _ (rows t)); [done | discriminate].
Qed.

Lemma select_data_update sid json l :
  map row_data
    (filter (fun r => session_id r = sid)
       (map (fun r => if String.eqb (session_id r) sid
                      then {| row_id := row_id r; session_id := session_id r;
                              row_data := json |}
                      else r) l))
  = replicate (length (filter (fun r => session_id r = sid) l)) json.
Proof.
  induction l as [|r l IH]; [done|].
  rewrite map_cons, !filter_cons.
  destruct (String.eqb_spec (session_id r) sid) as [Heq|Hne]; cbn [session_id].
  - rewrite !decide_True by done. cbn [map length replicate row_data].
    by rewrite IH.
  - rewrite !decide_False by done. apply IH.
Qed.

Lemma select_data_insert sid json t :
  (DbStore.rows_for sid t <= 1)%nat ->
  DbStore.select_data sid (DbStore.insert_on_duplicate_key_update sid json t)
  = [json].
Proof.
  intros Hle.
  unfold DbStore.insert_on_duplicate_key_update, DbStore.select_data.
  destruct (DbStore.has_session sid t) eqn:Hh.
  - assert (Hone : DbStore.rows_for sid t = 1%nat).
    { destruct (DbStore.rows_for sid t) as [|[|n]] eqn:Hn; [|done|lia].
      apply has_session_rows_for in Hn. congruence. }
    cbn [rows]. rewrite select_data_update.
    unfold DbStore.rows_for in Hone. by rewrite Hone.
  - apply has_session_rows_for, select_data_absent in Hh.
    unfold DbStore.select_data in Hh.
    cbn [rows]. rewrite filter_app, map_app, Hh, filter_cons.
    cbn [session_id]. by rewrite decide_True.
Qed.

(** At most one row per session identifier, whatever the clients of the
    store call and however the driver settles each call. *)
Lemma run_calls_unique stringify cs e sid :
  (forall sid', DbStore.rows_for sid' (db e) <= 1)%nat ->
  (DbStore.rows_for sid (db (DbStore.run_calls stringify cs e)) <= 1)%nat.
Proof.
  unfold DbStore.run_calls. revert e sid.
  induction cs as [|c cs IH]; intros e sid Hinv; [apply Hinv|].
  cbn [foldl]. apply IH. intros sid'. clear IH.
  destruct c as [[[]|x] s d | [[]|x] s];
    unfold DbStore.run_call, DbStore.saveSession, DbStore.deleteSession,
      DbStore.db_execute; unfold_monad; cbn [fst snd db set_db]; try apply Hinv.
  - rewrite rows_for_insert. destruct (decide _); [|apply Hinv].
    specialize (Hinv s). lia.
  - rewrite rows_for_delete. destruct (decide _); [lia | apply Hinv].
Qed.

Lemma rows_length_insert sid json t :
  length (rows (DbStore.insert_on_duplicate_key_update sid json t))
  = if DbStore.has_session sid t then length (rows t) else S (length (rows t)).
Proof.
  unfold DbStore.insert_on_duplicate_key_update.
  destruct (DbStore.has_session sid t); cbn.
  - by rewrite length_map.
  - rewrite length_app. cbn. lia.
Qed.

(** C9.  The credential store: loading a session identifier that has no row
    returns the absent value and is not an error; a save creates the row when
    there is none and updates it in place when there is one (the number of
    rows does not change), after which a load parses the blob just saved; and
    whatever sequence of saves and deletes is run on the empty table, no
    session identifier ever has more than one row. *)
Theorem credential_store_absence_and_upsert :
  forall (JSON_stringify : AuthState -> string)
         (JSON_parse : string -> option AuthState),
    (forall e sid,
        DbStore.rows_for sid (db e) = 0%nat ->
        DbStore.getSession JSON_parse (Ok tt) sid e = (Ok None, e, []))
    /\ (forall e sid blob,
           let saved := DbStore.saveSession JSON_stringify (Ok tt) sid blob e in
           result saved = Ok tt
           /\ (DbStore.rows_for sid (db e) = 0%nat ->
               DbStore.rows_for sid (db (final saved)) = 1%nat
               /\ length (rows (db (final saved))) = S (length (rows (db e))))
           /\ (DbStore.rows_for sid (db e) = 1%nat ->
               DbStore.rows_for sid (db (final saved)) = 1%nat
               /\ length (rows (db (final saved))) = length (rows (db e)))
           /\ ((DbStore.rows_for sid (db e) <= 1)%nat ->
               result (DbStore.getSession JSON_parse (Ok tt) sid (final saved))
               = Ok (JSON_parse (JSON_stringify blob))))
    /\ (forall cs url sid,
           (DbStore.rows_for sid
              (db (DbStore.run_calls JSON_stringify cs (new_engine url))) <= 1)%nat).
Proof.
  intros JSON_stringify JSON_parse. repeat apply conj.
  - intros e sid H0. unfold DbStore.getSession, DbStore.db_query. unfold_monad.
    cbn. by rewrite (select_data_absent _ _ H0).
  - intros e sid blob. cbn zeta.
    unfold DbStore.saveSession, DbStore.db_execute. unfold_monad. cbn.
    repeat apply conj.
    + reflexivity.
    + intros H0. rewrite rows_for_insert, rows_length_insert.
      rewrite decide_True by done.
      apply has_session_rows_for in H0 as Hh. rewrite Hh. split; lia.
    + intros H1. rewrite rows_for_insert, rows_length_insert.
      rewrite decide_True by done.
      destruct (DbStore.has_session sid (db e)) eqn:Hh; [split; lia|].
      apply has_session_rows_for in Hh. lia.
    + intros Hle. unfold DbStore.getSession, DbStore.db_query. unfold_monad.
      cbn. by rewrite select_data_insert.
  - intros cs url sid. apply run_calls_unique. intros sid'. cbn. lia.
Qed.

Lemma credential_store_absence_and_upsert_witness :
  let url := "http://localhost:8000/webhook/whatsapp" in
  let blob := {| creds := Some "creds"; keys := Some "keys" |} in
  let stringify := fun _ : AuthState => "{}" in
  let parse := fun _ : string => Some blob in
  DbStore.getSession parse (Ok tt) "default" (new_engine url)
  = (Ok None, new_engine url, [])
  /\ DbStore.rows_for "default"
       (db (final (DbStore.saveSession stringify (Ok tt) "default" blob
                     (new_engine url)))) = 1%nat
  /\ result (DbStore.getSession parse (Ok tt) "default"
               (final (DbStore.saveSession stringify (Ok tt) "default" blob
                         (new_engine url)))) = Ok (Some blob).
Proof.
  cbn zeta.
  destruct (credential_store_absence_and_upsert
              (fun _ : AuthState => "{}")
              (fun _ : string => Some {| creds := Some "creds"; keys := Some "keys" |}))
    as (Hload & Hsave & _).
  destruct (Hsave (new_engine "http://localhost:8000/webhook/whatsapp") "default"
              {| creds := Some "creds"; keys := Some "keys" |})
    as (_ & Hnew & _ & Hget).
  repeat apply conj.
  - apply Hload. reflexivity.
  - apply Hnew. reflexivity.
  - apply Hget. vm_compute. lia.
Defined.

(** ** [connect] *)

(** A set-up failure schedules a retry five seconds later, in both engines. *)
Lemma connect_failure_retries_after_5s e x :
  timers (final (FileEngine.connect (Err x) e)) = timers e ++ [5000]
  /\ (forall parse q make,
         timers (final (DbEngine.connect parse (Err x) q make e))
         = timers e ++ [5000]).
Proof. split; [reflexivity | intros parse q make; reflexivity]. Qed.

(** With no row for the session, [connect] of [index.js] starts a new login:
    the absent value is not an error and no retry is scheduled. *)
Lemma db_connect_without_saved_session parse e :
  DbStore.rows_for "default" (db e) = 0%nat ->
  let r := DbEngine.connect parse (Ok tt) (Ok tt) (Ok tt) e in
  result r = Ok tt
  /\ sock (final r) = Some {| auth_restored := false |}
  /\ timers (final r) = timers e
  /\ errors_logged (trace r) = [].
Proof.
  intros H0. unfold DbEngine.connect, DbStore.getSession, DbStore.db_query.
  unfold_monad. cbn. rewrite (select_data_absent _ _ H0). cbn. auto.
Qed.

(** * Further properties of the code *)

(** ** Traces *)

Lemma webhook_events_app t1 t2 :
  webhook_events (t1 ++ t2) = webhook_events t1 ++ webhook_events t2.
Proof. unfold webhook_events, posts. by rewrite omap_app, map_app. Qed.

Lemma emitted_app t1 t2 : emitted (t1 ++ t2) = emitted t1 ++ emitted t2.
Proof. unfold emitted. by rewrite omap_app. Qed.

Lemma bind_run {A B} (m : M A) (k : A -> M B) e a e1 t1 :
  m e = (Ok a, e1, t1) ->
  bind m k e = (result (k a e1), final (k a e1), t1 ++ trace (k a e1)).
Proof.
  intros H. unfold bind, result, final, trace. rewrite H.
  by destruct (k a e1) as [[r e2] t2].
Qed.

Lemma file_sendWebhook_trace eventType payload now o e :
  exists t,
    FileEngine.sendWebhook eventType payload now o e = (Ok tt, e, t)
    /\ posts t = []
    /\ map fst (errors_logged t) = ["Failed to send webhook: " +:+ eventType]
    /\ emitted t = [].
Proof. rewrite file_sendWebhook_run. eexists. repeat split. Qed.

Lemma posts_app t1 t2 : posts (t1 ++ t2) = posts t1 ++ posts t2.
Proof. unfold posts. by rewrite omap_app. Qed.

Lemma errors_logged_app t1 t2 :
  errors_logged (t1 ++ t2) = errors_logged t1 ++ errors_logged t2.
Proof. unfold errors_logged. by rewrite omap_app. Qed.

(** ** The [messages.update] handler *)

Lemma status_webhook_run update now o e :
  exists t,
    FileEngine.status_webhook update now o e = (Ok tt, e, t)
    /\ posts t = []
    /\ map fst (errors_logged t)
       = map (fun ev => "Failed to send webhook: " +:+ ev.1)
           (option_list (status_event update))
    /\ emitted t = [].
Proof.
  unfold FileEngine.status_webhook, status_event.
  destruct (su_status update) as [st|]; [|by exists []].
  destruct (Z.eqb_spec st 0) as [->|H0]; [by exists []|].
  destruct (Z.eqb_spec st 3) as [->|H3].
  - unfold_monad.
    match goal with
    | |- context [FileEngine.sendWebhook ?a ?b ?c ?d ?e'] =>
        destruct (file_sendWebhook_trace a b c d e') as (t & U & Hp & Hw & He)
    end.
    rewrite U. by exists t.
  - destruct (Z.eqb_spec st 4) as [->|H4].
    + unfold_monad.
      match goal with
      | |- context [FileEngine.sendWebhook ?a ?b ?c ?d ?e'] =>
          destruct (file_sendWebhook_trace a b c d e') as (t & U & Hp & Hw & He)
      end.
      rewrite U. by exists t.
    + exists []. repeat split.
      destruct st as [|p|p]; try done.
      destruct p as [[p|p|]|[p|[p|p|]|]|]; done.
Qed.

Lemma messages_update_run :
  forall (updates : list (StatusUpdate * HttpOutcome)) (now : Z) (e : Engine),
    let r := FileEngine.on_messages_update updates now e in
    result r = Ok tt
    /\ final r = e
    /\ posts (trace r) = []
    /\ map fst (errors_logged (trace r))
       = map (fun ev => "Failed to send webhook: " +:+ ev.1)
           (omap status_event (map fst updates))
    /\ emitted (trace r) = [].
Proof.
  intros updates now e. cbn zeta.
  induction updates as [|[update o] updates IH]; [by repeat split|].
  destruct IH as (R & F & P & W & E).
  destruct (status_webhook_run update now o e) as (t & U & Hp & Hw & He).
  cbn [FileEngine.on_messages_update]. rewrite (bind_run _ _ _ _ _ _ U).
  unfold result, final, trace in *. cbn [fst snd map].
  rewrite posts_app, errors_logged_app, map_app, emitted_app, Hp, Hw, He, R, F, P, W, E.
  repeat split. cbn. by destruct (status_event update).
Qed.

(** X1.  The [messages.update] handler calls [sendWebhook] once for every
    update of status 3 (event [message_delivered]) and once for every update
    of status 4 (event [message_read]), in the order of the updates; updates
    with any other status, or none, are skipped.  Each of these calls stops
    at [require("axios")]: no HTTP request is made and one failure line
    naming the event is written.  The handler returns normally, leaves the
    engine as it was and sends nothing to the push subscribers. *)
Theorem messages_update_webhooks :
  forall (updates : list (StatusUpdate * HttpOutcome)) (now : Z) (e : Engine),
    let r := FileEngine.on_messages_update updates now e in
    result r = Ok tt
    /\ final r = e
    /\ posts (trace r) = []
    /\ map fst (errors_logged (trace r))
       = map (fun ev => "Failed to send webhook: " +:+ ev.1)
           (omap status_event (map fst updates))
    /\ emitted (trace r) = [].
Proof. intros updates now e. apply messages_update_run. Qed.

(** ** The [connection.update] handler and what is served from its state *)

Ltac update_cases u f :=
  unfold FileEngine.on_connection_update, DbEngine.on_connection_update;
  unfold_monad;
  let c := fresh "c" in
  let rest := fresh "rest" in
  let url := fresh "rendered" in
  let x := fresh "failure" in
  destruct u as [[[]|] ? [[|c rest]|]]; cbn;
  try (destruct (f (String c rest)) as [url|x] eqn:?; cbn);
  try (destruct (shouldReconnect _); cbn).

Lemma truthy_nonempty (s : string) : s <> "" -> Js.truthy_str (Some s) = true.
Proof. by destruct s. Qed.

(** X2.  When the stream delivers a QR code and the update opens or closes
    nothing, both engines store the rendered artifact with status [qr],
    broadcast exactly that pair, answer [GET /status] with it, and send it
    to a push subscriber that connects afterwards. *)
Theorem qr_ready_is_served :
  forall (u : ConnectionUpdate) (f : string -> Res string) (e : Engine)
         (raw url : string),
    upd_qr u = Some raw -> raw <> "" -> f raw = Ok url ->
    connection u <> Some conn_open -> connection u <> Some conn_close ->
    let file := FileEngine.on_connection_update u f e in
    let db := DbEngine.on_connection_update u f e in
    final file = final db
    /\ emitted (trace file) = [EmStatus qr; EmQr (Some url)]
    /\ emitted (trace db) = [EmStatus qr; EmQr (Some url)]
    /\ result (get_status (final file))
       = Ok (200, {| sb_status := qr; sb_qr := Some url |})
    /\ result (on_socket_connection (final file))
       = Ok (EmStatus qr :: (if Js.truthy_str (Some url) then [EmQr (Some url)] else [])).
Proof.
  intros u f e raw url Hq Hraw Hf Ho Hc. cbn zeta.
  destruct u as [conn code q]. cbn in Hq, Ho, Hc. subst q.
  destruct raw as [|c rest]; [done|].
  unfold FileEngine.on_connection_update, DbEngine.on_connection_update.
  unfold_monad. cbn. rewrite Hf. cbn.
  destruct conn as [[]|]; try done; repeat split; reflexivity.
Qed.

Lemma qr_ready_is_served_witness :
  let u := {| connection := None; statusCode := None; upd_qr := Some "XYZ" |} in
  let f := fun raw => Ok ("data:image/png;base64," +:+ raw) in
  result (get_status (final (DbEngine.on_connection_update u f
                               (new_engine "http://localhost:8000/webhook/whatsapp"))))
  = Ok (200, {| sb_status := qr; sb_qr := Some "data:image/png;base64,XYZ" |}).
Proof.
  cbn zeta.
  destruct (qr_ready_is_served
              {| connection := None; statusCode := None; upd_qr := Some "XYZ" |}
              (fun raw => Ok ("data:image/png;base64," +:+ raw))
              (new_engine "http://localhost:8000/webhook/whatsapp")
              "XYZ" "data:image/png;base64,XYZ" eq_refl
              ltac:(discriminate) eq_refl ltac:(discriminate) ltac:(discriminate))
    as (Heq & _ & _ & Hs & _).
  rewrite <- Heq. exact Hs.
Defined.

(** X3.  In both engines the [connection.update] handler broadcasts what it
    committed: either it sends nothing to the push subscribers and leaves
    status and QR artifact as they were, or the last two things it sends are
    the status and the QR artifact of the state it leaves. *)
Theorem connection_update_broadcasts_committed_state :
  forall (u : ConnectionUpdate) (f : string -> Res string) (e : Engine),
    let committed := fun r : Res unit * Engine * list Effect =>
      (emitted (trace r) = []
       /\ status (final r) = status e /\ qrCode (final r) = qrCode e)
      \/ (exists earlier,
             emitted (trace r)
             = earlier ++ [EmStatus (status (final r)); EmQr (qrCode (final r))]) in
    committed (FileEngine.on_connection_update u f e)
    /\ committed (DbEngine.on_connection_update u f e).
Proof.
  intros u f e. cbn zeta.
  update_cases u f;
    (split;
     first [ left; repeat split; reflexivity
           | right; by exists []
           | right; by eexists [_; _] ]).
Qed.

(** X4.  When rendering the QR code fails, the handler of either engine
    stops with that error before it looks at the connection field: nothing
    is broadcast and the engine is unchanged, so a close reported by the same
    update schedules no reconnection. *)
Theorem qr_rendering_failure_skips_update :
  forall (u : ConnectionUpdate) (f : string -> Res string) (e : Engine)
         (raw : string) (x : JsError),
    upd_qr u = Some raw -> raw <> "" -> f raw = Err x ->
    FileEngine.on_connection_update u f e = (Err x, e, [])
    /\ DbEngine.on_connection_update u f e = (Err x, e, []).
Proof.
  intros u f e raw x Hq Hraw Hf.
  destruct u as [conn code q]. cbn in Hq. subst q.
  destruct raw as [|c rest]; [done|].
  unfold FileEngine.on_connection_update, DbEngine.on_connection_update.
  unfold_monad. cbn. rewrite Hf. by split.
Qed.

Lemma qr_rendering_failure_skips_update_witness :
  timers (final (FileEngine.on_connection_update
                   {| connection := Some conn_close; statusCode := Some 428;
                      upd_qr := Some "XYZ" |}
                   (fun _ => Err (Error "render"))
                   connected_engine)) = [].
Proof.
  destruct (qr_rendering_failure_skips_update
              {| connection := Some conn_close; statusCode := Some 428;
                 upd_qr := Some "XYZ" |}
              (fun _ => Err (Error "render")) connected_engine "XYZ"
              (Error "render") eq_refl ltac:(discriminate) eq_refl) as [H _].
  rewrite H. reflexivity.
Defined.

(** ** Routes that only read *)

Lemma db_sendWebhook_trace eventType payload now o e :
  exists t,
    DbEngine.sendWebhook eventType payload now o e = (Ok tt, e, t)
    /\ webhook_events t = [(eventType, wd_message_id payload)]
    /\ emitted t = [].
Proof.
  unfold DbEngine.sendWebhook, axios_post. unfold_monad.
  destruct o as [c|msg]; cbn.
  - destruct (default_validateStatus c); cbn;
      eexists; (split; [reflexivity|]); split; reflexivity.
  - eexists; (split; [reflexivity|]); split; reflexivity.
Qed.

Lemma file_post_send_final number message lookup send now o e :
  (exists answer,
      result (FileEngine.post_send number message lookup send now o e) = Ok answer)
  /\ final (FileEngine.post_send number message lookup send now o e) = e
  /\ emitted (trace (FileEngine.post_send number message lookup send now o e)) = [].
Proof.
  unfold FileEngine.post_send. unfold_monad.
  destruct (status e); cbn; eauto.
  destruct (Js.truthy_str number); cbn; eauto.
  destruct (Js.truthy_str message); cbn; eauto.
  destruct (sock e) eqn:Hs; cbn; eauto.
  destruct lookup as [[[|found rest]|]|x]; cbn; eauto.
  destruct (ow_exists found); cbn; eauto.
  rewrite Hs. destruct send as [sent|x]; cbn; eauto.
Qed.

Lemma db_post_send_final number message lookup send now o e :
  (exists answer,
      result (DbEngine.post_send number message lookup send now o e) = Ok answer)
  /\ final (DbEngine.post_send number message lookup send now o e) = e
  /\ emitted (trace (DbEngine.post_send number message lookup send now o e)) = [].
Proof.
  unfold DbEngine.post_send. unfold_monad.
  destruct (status e); cbn; eauto.
  destruct (Js.truthy_str number); cbn; eauto.
  destruct (Js.truthy_str message); cbn; eauto.
  destruct (sock e) eqn:Hs; cbn; eauto.
  destruct lookup as [[[|found rest]|]|x]; cbn; eauto.
  destruct (ow_exists found); cbn; eauto.
  rewrite Hs. destruct send as [sent|x]; cbn; eauto.
  match goal with
  | |- context [DbEngine.sendWebhook ?a ?b ?c ?d ?e'] =>
      destruct (db_sendWebhook_trace a b c d e') as (t & U & _ & He)
  end.
  rewrite U. cbn. rewrite app_nil_r. eauto.
Qed.

Ltac read_route e lookup :=
  unfold_monad;
  destruct (status e); cbn; eauto;
  destruct (sock e) eqn:?; cbn; eauto;
  destruct lookup as [[[|? ?]|]|?]; cbn; eauto.

Lemma get_check_unchanged peer lookup e :
  let r := FileEngine.get_check peer lookup e in
  (exists answer, result r = Ok answer) /\ final r = e /\ emitted (trace r) = [].
Proof. unfold FileEngine.get_check. read_route e lookup. Qed.

Lemma get_messages_unchanged peer limit_q lookup e :
  let r := FileEngine.get_messages peer limit_q lookup e in
  (exists answer, result r = Ok answer) /\ final r = e /\ emitted (trace r) = [].
Proof.
  unfold FileEngine.get_messages. read_route e lookup.
  destruct (ow_exists _); cbn; eauto.
Qed.

Lemma get_conversations_unchanged limit_q now e :
  let r := FileEngine.get_conversations limit_q now e in
  (exists answer, result r = Ok answer) /\ final r = e /\ emitted (trace r) = [].
Proof.
  unfold FileEngine.get_conversations. unfold_monad.
  destruct (status e); cbn; eauto.
Qed.

Lemma post_mark_read_unchanged number lookup read e :
  let r := FileEngine.post_mark_read number lookup read e in
  (exists answer, result r = Ok answer) /\ final r = e /\ emitted (trace r) = [].
Proof.
  unfold FileEngine.post_mark_read. read_route e lookup.
  destruct (ow_exists _); cbn; eauto.
  destruct (sock e); [|done]. destruct read as [[]|x]; cbn; eauto.
Qed.

(** X5.  The routes [GET /check], [GET /messages], [GET /conversations],
    [POST /mark-read] and [POST /send] of the file-session engine, and
    [POST /send] of [index.js], always answer (no error escapes the handler),
    change no field of the engine and send nothing to the push subscribers,
    whatever the request and however the protocol client, the clock and the
    webhook endpoint behave. *)
Theorem routes_leave_engine_unchanged :
  forall (e : Engine) (number message : option string) (peer : string)
         (limit_q : option Z) (lookup : Lookup) (send : Res SentMessage)
         (read : Res unit) (now : Z) (o : HttpOutcome),
    let unchanged := fun r : Res Response * Engine * list Effect =>
      (exists answer, result r = Ok answer)
      /\ final r = e /\ emitted (trace r) = [] in
    unchanged (FileEngine.get_check peer lookup e)
    /\ unchanged (FileEngine.get_messages peer limit_q lookup e)
    /\ unchanged (FileEngine.get_conversations limit_q now e)
    /\ unchanged (FileEngine.post_mark_read number lookup read e)
    /\ unchanged (FileEngine.post_send number message lookup send now o e)
    /\ unchanged (DbEngine.post_send number message lookup send now o e).
Proof.
  intros e number message peer limit_q lookup send read now o. cbn zeta.
  split; [|split; [|split; [|split; [|split]]]].
  - apply get_check_unchanged.
  - apply get_messages_unchanged.
  - apply get_conversations_unchanged.
  - apply post_mark_read_unchanged.
  - apply file_post_send_final.
  - apply db_post_send_final.
Qed.

(** ** Runs of events *)

Lemma upsert_final m now o e :
  final (FileEngine.on_messages_upsert m now o e)
  = match upsert_record m now with
    | Some (jid, md) =>
        set_conversations
          (FileEngine.archive_conversation jid md (conversations e))
          (set_messages (FileEngine.archive_message jid md (messages e)) e)
    | None => e
    end.
Proof.
  unfold FileEngine.on_messages_upsert, upsert_record.
  destruct (upsert_messages m) as [|message rest]; [done|].
  destruct (String.eqb (upsert_type m) "notify"); [|done].
  unfold_monad.
  cbn -[FileEngine.archive_message FileEngine.archive_conversation
        FileEngine.sendWebhook FileEngine.messageData].
  destruct (md_fromMe (FileEngine.messageData message now));
    cbn -[FileEngine.archive_message FileEngine.archive_conversation
          FileEngine.sendWebhook FileEngine.messageData]; [done|].
  match goal with
  | |- context [FileEngine.sendWebhook ?a ?b ?c ?d ?e'] =>
      destruct (file_sendWebhook_trace a b c d e') as (t & U & _)
  end.
  by rewrite U.
Qed.

Lemma file_connect_frame establish e :
  let e' := final (FileEngine.connect establish e) in
  status e' = status e /\ qrCode e' = qrCode e /\ messages e' = messages e
  /\ conversations e' = conversations e /\ db e' = db e.
Proof. destruct establish; by repeat split. Qed.

Lemma fire_timer_frame (connect : M unit) e :
  (forall e0, let e' := final (connect e0) in
     status e' = status e0 /\ qrCode e' = qrCode e0 /\ messages e' = messages e0
     /\ conversations e' = conversations e0 /\ db e' = db e0) ->
  let e' := final (fire_timer connect e) in
  status e' = status e /\ qrCode e' = qrCode e /\ messages e' = messages e
  /\ conversations e' = conversations e /\ db e' = db e.
Proof.
  intros H. unfold fire_timer. unfold_monad.
  destruct (timers e) as [|d rest]; cbn; [done|].
  specialize (H (set_timers rest e)). cbn in H.
  destruct (connect (set_timers rest e)) as [[r e1] t1]. by cbn in *.
Qed.

Lemma connection_update_frame u f e :
  let file := final (FileEngine.on_connection_update u f e) in
  let db' := final (DbEngine.on_connection_update u f e) in
  (messages file = messages e /\ conversations file = conversations e
   /\ db file = db e /\ sock file = sock e)
  /\ (messages db' = messages e /\ conversations db' = conversations e
      /\ db db' = db e /\ sock db' = sock e)
  /\ (qr_only_while_scanning e -> qr_only_while_scanning file)
  /\ (qr_only_while_scanning e -> qr_only_while_scanning db').
Proof.
  unfold qr_only_while_scanning. cbn zeta.
  update_cases u f; repeat split; auto.
Qed.

Lemma file_disconnect_frame logout e :
  let e' := final (FileEngine.post_disconnect logout e) in
  messages e' = messages e /\ conversations e' = conversations e /\ db e' = db e
  /\ (qr_only_while_scanning e -> qr_only_while_scanning e').
Proof.
  unfold FileEngine.post_disconnect, FileEngine.cleanup, qr_only_while_scanning.
  unfold_monad.
  destruct (sock e); cbn; [|by repeat split].
  destruct (status e) eqn:Hst; cbn; try (repeat split; rewrite ?Hst; auto; fail).
  destruct logout as [[]|x]; cbn; destruct (sessionDir e); cbn;
    repeat split; auto.
Qed.

Lemma db_disconnect_frame logout e :
  let e' := final (DbEngine.post_disconnect logout e) in
  db e' = db e /\ (qr_only_while_scanning e -> qr_only_while_scanning e').
Proof.
  unfold DbEngine.post_disconnect, DbEngine.cleanup, qr_only_while_scanning.
  unfold_monad.
  destruct (sock e); cbn; [|by repeat split].
  destruct (status e) eqn:Hst; cbn; try (repeat split; rewrite ?Hst; auto; fail).
  destruct logout as [[]|x]; cbn; repeat split; rewrite ?Hst; auto.
Qed.

(** What one event does to the two archives, and that it keeps a QR artifact
    tied to the status [qr]. *)
Lemma file_step_frame ev e :
  let stored := match ev with
                | FUpsert m now _ => upsert_record m now
                | _ => None
                end in
  messages (file_step ev e)
  = match stored with
    | Some (jid, md) => FileEngine.archive_message jid md (messages e)
    | None => messages e
    end
  /\ conversations (file_step ev e)
     = match stored with
       | Some (jid, md) => FileEngine.archive_conversation jid md (conversations e)
       | None => conversations e
       end
  /\ (qr_only_while_scanning e -> qr_only_while_scanning (file_step ev e)).
Proof.
  destruct ev; cbn [file_step].
  - destruct (file_connect_frame establish e) as (H1 & H2 & H3 & H4 & _).
    unfold qr_only_while_scanning. cbn zeta in *. rewrite H1, H2. auto.
  - destruct (fire_timer_frame (FileEngine.connect establish) e
                (file_connect_frame establish)) as (H1 & H2 & H3 & H4 & _).
    unfold qr_only_while_scanning. cbn zeta in *. rewrite H1, H2. auto.
  - destruct (connection_update_frame u toDataURL e)
      as ((H1 & H2 & _) & _ & H3 & _). auto.
  - destruct saveCreds; cbn; auto.
  - rewrite upsert_final. unfold qr_only_while_scanning.
    destruct (upsert_record m now) as [[jid md]|]; auto.
  - destruct (messages_update_run updates now e) as (_ & F & _).
    cbn zeta in F. rewrite F. auto.
  - destruct (file_disconnect_frame logout e) as (H1 & H2 & _ & H3). auto.
  - destruct (file_post_send_final number message lookup send now o e)
      as (_ & F & _).
    rewrite F. auto.
  - destruct (get_check_unchanged number lookup e) as (_ & F & _).
    cbn zeta in F. rewrite F. auto.
  - destruct (get_messages_unchanged number limit_q lookup e) as (_ & F & _).
    cbn zeta in F. rewrite F. auto.
  - destruct (get_conversations_unchanged limit_q now e) as (_ & F & _).
    cbn zeta in F. rewrite F. auto.
  - destruct (post_mark_read_unchanged number lookup read e) as (_ & F & _).
    cbn zeta in F. rewrite F. auto.
Qed.

Lemma file_run_archives evs e :
  messages (file_run evs e) = archive_all (run_records evs) (messages e)
  /\ conversations (file_run evs e)
     = archive_all_conversations (run_records evs) (conversations e).
Proof.
  unfold file_run, archive_all, archive_all_conversations, run_records.
  revert e. induction evs as [|ev evs IH]; intros e; [done|].
  destruct (file_step_frame ev e) as (Hm & Hc & _).
  cbn [foldl omap list_omap]. destruct (IH (file_step ev e)) as [IHm IHc].
  rewrite IHm, IHc, Hm, Hc.
  destruct ev; try done.
  by destruct (upsert_record m now) as [[jid md]|].
Qed.

(** X6.  In the file-session engine only [messages.upsert] events touch the
    archive: after any run of stream events, timers and HTTP requests, the
    messages map and the conversations map are what storing the records of
    the run's [notify] events, in order, makes of the maps before the run. *)
Theorem archive_changes_only_by_upserts :
  forall (evs : list FileEvent) (e : Engine),
    messages (file_run evs e) = archive_all (run_records evs) (messages e)
    /\ conversations (file_run evs e)
       = archive_all_conversations (run_records evs) (conversations e).
Proof. apply file_run_archives. Qed.

Lemma db_connect_frame parse v q m e :
  let e' := final (DbEngine.connect parse v q m e) in
  status e' = status e /\ qrCode e' = qrCode e /\ messages e' = messages e
  /\ conversations e' = conversations e /\ db e' = db e.
Proof.
  unfold DbEngine.connect, DbStore.getSession, DbStore.db_query. unfold_monad.
  destruct v as [[]|x]; cbn; [|done].
  destruct q as [[]|x]; cbn; [|done].
  destruct (DbStore.select_data "default" (db e)); cbn;
    destruct m as [[]|x]; by cbn.
Qed.

Lemma creds_update_frame stringify current getAll q e :
  let e' := final (DbEngine.on_creds_update stringify current getAll q e) in
  status e' = status e /\ qrCode e' = qrCode e /\ sock e' = sock e
  /\ timers e' = timers e.
Proof.
  cbn zeta.
  unfold DbEngine.on_creds_update, DbStore.saveSession, DbStore.db_execute.
  unfold_monad. cbn. destruct (sock e) eqn:Hs; cbn; [|by rewrite Hs].
  destruct getAll as [ks|x]; cbn; [|by rewrite Hs].
  destruct q as [[]|x]; cbn; by rewrite ?Hs.
Qed.

Lemma db_step_qr stringify parse ev e :
  qr_only_while_scanning e ->
  qr_only_while_scanning (db_step stringify parse ev e).
Proof.
  intros H. destruct ev; cbn [db_step].
  - destruct (db_connect_frame parse version q make e) as (H1 & H2 & _).
    unfold qr_only_while_scanning. cbn zeta in *. by rewrite H1, H2.
  - destruct (fire_timer_frame (DbEngine.connect parse version q make) e
                (db_connect_frame parse version q make)) as (H1 & H2 & _).
    unfold qr_only_while_scanning. cbn zeta in *. by rewrite H1, H2.
  - by apply connection_update_frame.
  - destruct (creds_update_frame stringify current getAll q e) as (H1 & H2 & _).
    unfold qr_only_while_scanning. cbn zeta in *. by rewrite H1, H2.
  - by apply db_disconnect_frame.
  - destruct (db_post_send_final number message lookup send now o e)
      as (_ & F & _).
    by rewrite F.
Qed.

(** X7.  Both engines hold a QR artifact only while their status is [qr]:
    the property holds for a new engine and is kept by every stream event,
    timer and HTTP request, so [GET /status] never reports a QR code next to
    the status connected or disconnected. *)
Theorem qr_artifact_only_while_scanning :
  forall (stringify : AuthState -> string) (parse : string -> option AuthState)
         (url : string) (evs : list FileEvent) (devs : list DbEvent),
    qr_only_while_scanning (file_run evs (new_engine url))
    /\ qr_only_while_scanning (db_run stringify parse devs (new_engine url)).
Proof.
  intros stringify parse url evs devs.
  assert (H0 : qr_only_while_scanning (new_engine url)) by (by left).
  split.
  - unfold file_run. revert H0. generalize (new_engine url).
    induction evs as [|ev evs IH]; intros e He; [done|].
    apply IH. by apply file_step_frame.
  - unfold db_run. revert H0. generalize (new_engine url).
    induction devs as [|ev devs IH]; intros e He; [done|].
    apply IH. by apply db_step_qr.
Qed.

Lemma push_evict_length buf md :
  (length buf <= 50)%nat ->
  (1 <= length (FileEngine.push_evict buf md) <= 50)%nat.
Proof.
  intros H. unfold FileEngine.push_evict, Js.shift. cbn zeta.
  match goal with |- context [50 <? ?a] => destruct (Z.ltb_spec 50 a) as [Hgt|Hle] end;
    rewrite length_app in *; cbn [length] in *.
  - destruct buf as [|b buf]; cbn in *; [lia|]. rewrite length_app. cbn. lia.
  - lia.
Qed.

Lemma archive_message_bounded jid md msgs :
  buffers_bounded msgs -> buffers_bounded (FileEngine.archive_message jid md msgs).
Proof.
  intros H peer buf Hbuf. destruct (decide (jid = peer)) as [->|Hne].
  - rewrite archive_message_lookup in Hbuf. injection Hbuf as <-.
    apply push_evict_length.
    destruct (msgs !! peer) as [b|] eqn:Hb; cbn; [|lia].
    by apply (H peer b).
  - rewrite archive_message_lookup_ne in Hbuf by done. by apply (H peer).
Qed.

(** X8.  Every buffer of the messages map holds between 1 and 50 records,
    at every moment: the bound holds for a new engine and is kept by every
    event of the file-session engine. *)
Theorem message_buffers_stay_bounded :
  forall (url : string) (evs : list FileEvent),
    buffers_bounded (messages (file_run evs (new_engine url))).
Proof.
  intros url evs. destruct (file_run_archives evs (new_engine url)) as [-> _].
  assert (H0 : buffers_bounded (messages (new_engine url))).
  { intros peer buf Hbuf. change (messages (new_engine url)) with
      (∅ : gmap string (list MessageData)) in Hbuf.
    by rewrite lookup_empty in Hbuf. }
  revert H0. generalize (messages (new_engine url)).
  unfold archive_all. induction (run_records evs) as [|[jid md] rs IH];
    intros msgs Hm; [done|].
  cbn [foldl]. apply IH. by apply archive_message_bounded.
Qed.

(** ** GET /messages on the archive of a run *)

Lemma last_n_min {A} (k : nat) (l : list A) :
  last_n k l = last_n (length l `min` k) l.
Proof. unfold last_n. f_equal. lia. Qed.

Lemma get_messages_found e s number limit_q found rest :
  status e = connected -> sock e = Some s -> ow_exists found = true ->
  result (FileEngine.get_messages number limit_q (Ok (Some (found :: rest))) e)
  = Ok (json (BodyMessages number
                (FileEngine.recent (messages e) (ow_jid found)
                   (Js.or_num limit_q 20)))).
Proof.
  intros Hst Hs Hex. unfold FileEngine.get_messages. unfold_monad.
  rewrite Hst. cbn. rewrite Hs. cbn. rewrite Hex. reflexivity.
Qed.

(** X9.  [GET /messages/:number] on a connected file-session engine, after
    any run of events from start-up: for a number the lookup resolves to an
    existing peer, the answer is HTTP 200 with the last
    min(N, 50, limit) of the N records the run's [notify] events stored for
    that peer, oldest first, where the limit is the query parameter, or 20
    when the parameter is missing, not a number or 0 (the limit being at
    least 1). *)
Theorem get_messages_serves_recent_records :
  forall (url : string) (evs : list FileEvent) (s : Sock) (number : string)
         (limit_q : option Z) (found : OnWhatsApp) (rest : list OnWhatsApp),
    let e := file_run evs (new_engine url) in
    let limit := Js.or_num limit_q 20 in
    let arrived := arrived_for (ow_jid found) (run_records evs) in
    status e = connected -> sock e = Some s -> ow_exists found = true ->
    1 <= limit ->
    result (FileEngine.get_messages number limit_q (Ok (Some (found :: rest))) e)
    = Ok (json (BodyMessages number
                  (last_n ((length arrived `min` 50) `min` Z.to_nat limit) arrived))).
Proof.
  intros url evs s number limit_q found rest. cbn zeta. intros Hst Hs Hex Hl.
  rewrite (get_messages_found _ s) by done.
  destruct (file_run_archives evs (new_engine url)) as [-> _].
  change (messages (new_engine url)) with (∅ : gmap string (list MessageData)).
  rewrite recent_archive_all by done. do 3 f_equal.
  rewrite last_n_min. f_equal. lia.
Qed.

Lemma get_messages_serves_recent_records_witness :
  result (FileEngine.get_messages "15550000000" None
            (Ok (Some [ {| ow_exists := true;
                           ow_jid := "15550000000@s.whatsapp.net" |} ]))
            (file_run sample_run
               (new_engine "http://localhost:8000/webhook/whatsapp")))
  = Ok (json (BodyMessages "15550000000"
                [FileEngine.messageData (sample_message 1) 0;
                 FileEngine.messageData (sample_message 2) 0])).
Proof.
  rewrite (get_messages_serves_recent_records
             "http://localhost:8000/webhook/whatsapp" sample_run
             {| auth_restored := false |} "15550000000" None
             {| ow_exists := true; ow_jid := "15550000000@s.whatsapp.net" |} []
             eq_refl eq_refl eq_refl ltac:(vm_compute; discriminate)).
  reflexivity.
Defined.

(** X10.  A negative limit is not refused: [GET /messages/:number?limit=-k]
    answers with the peer's buffer without its first k records (everything
    but the k oldest), and with nothing when the buffer holds k records or
    fewer. *)
Theorem get_messages_negative_limit :
  forall (e : Engine) (s : Sock) (number : string) (k : Z)
         (found : OnWhatsApp) (rest : list OnWhatsApp),
    status e = connected -> sock e = Some s -> ow_exists found = true ->
    1 <= k ->
    result (FileEngine.get_messages number (Some (- k))
              (Ok (Some (found :: rest))) e)
    = Ok (json (BodyMessages number
                  (drop (Z.to_nat k) (default [] (messages e !! ow_jid found))))).
Proof.
  intros e s number k found rest Hst Hs Hex Hk.
  rewrite (get_messages_found _ s) by done. do 3 f_equal.
  unfold FileEngine.recent, Js.or_num, Js.slice_from.
  destruct (Z.eqb_spec (- k) 0); [lia|].
  rewrite Z.opp_involutive. destruct (Z.ltb_spec k 0); [lia|].
  set (buf := default [] (messages e !! ow_jid found)).
  destruct (Z.min_spec k (Z.of_nat (length buf))) as [[Hlt ->]|[Hge ->]]; [done|].
  rewrite Nat2Z.id. rewrite !drop_ge; [done | lia | lia].
Qed.

Lemma get_messages_negative_limit_witness :
  result (FileEngine.get_messages "15550000000" (Some (-1))
            (Ok (Some [ {| ow_exists := true;
                           ow_jid := "15550000000@s.whatsapp.net" |} ]))
            (set_messages (archive_all (sample_arrivals 3) ∅) connected_engine))
  = Ok (json (BodyMessages "15550000000" [sample_record 1; sample_record 2])).
Proof.
  rewrite (get_messages_negative_limit
             (set_messages (archive_all (sample_arrivals 3) ∅) connected_engine)
             {| auth_restored := false |} "15550000000" 1
             {| ow_exists := true; ow_jid := "15550000000@s.whatsapp.net" |} []
             eq_refl eq_refl eq_refl ltac:(lia)).
  vm_compute. reflexivity.
Defined.

(** ** The conversations map *)

Lemma Map_get_set_ne {V} (k p : string) (v : V) (m : list (string * V)) :
  k <> p -> Js.Map_get p (Js.Map_set k v m) = Js.Map_get p m.
Proof.
  intros Hne. induction m as [|[k' v'] m IH]; cbn.
  - destruct (String.eqb_spec k p); [done | reflexivity].
  - destruct (String.eqb_spec k' k) as [->|Hk]; cbn.
    + destruct (String.eqb_spec k p); [done | reflexivity].
    + destruct (String.eqb_spec k' p); [reflexivity | apply IH].
Qed.

Lemma archive_conversation_get jid md convs p :
  default [] (Js.Map_get p (FileEngine.archive_conversation jid md convs))
  = default [] (Js.Map_get p convs) ++ (if decide (jid = p) then [md] else []).
Proof.
  unfold FileEngine.archive_conversation, Js.Map_has.
  destruct (decide (jid = p)) as [->|Hne].
  - rewrite Map_get_set. cbn.
    destruct (Js.Map_get p convs) eqn:Hg; cbn; [by rewrite Hg|].
    by rewrite Map_get_set.
  - rewrite Map_get_set_ne, app_nil_r by done.
    destruct (Js.Map_get jid convs); [done|]. by rewrite Map_get_set_ne.
Qed.

Lemma archive_all_conversations_get rs convs p :
  default [] (Js.Map_get p (archive_all_conversations rs convs))
  = default [] (Js.Map_get p convs) ++ arrived_for p rs.
Proof.
  unfold archive_all_conversations, arrived_for. revert convs.
  induction rs as [|[jid md] rs IH]; intros convs;
    cbn -[FileEngine.archive_conversation filter]; [by rewrite app_nil_r|].
  rewrite IH, archive_conversation_get, filter_cons. cbn [fst].
  destruct (decide (jid = p)); cbn -[filter]; by rewrite <- ?app_assoc, ?app_nil_r.
Qed.

(** X11.  The conversations map never drops a record: after any run of
    events from start-up the list kept for a peer holds every record the
    run stored for it, in arrival order, while the peer's buffer in the
    messages map is the last 50 entries of that list. *)
Theorem conversations_keep_every_record :
  forall (url : string) (evs : list FileEvent) (peer : string),
    let e := file_run evs (new_engine url) in
    let kept := default [] (Js.Map_get peer (conversations e)) in
    kept = arrived_for peer (run_records evs)
    /\ default [] (messages e !! peer) = last_n 50 kept.
Proof.
  intros url evs peer. cbn zeta.
  destruct (file_run_archives evs (new_engine url)) as [-> ->].
  rewrite archive_all_conversations_get. cbn [new_engine conversations Js.Map_get default app].
  split; [done|].
  change (messages (new_engine url)) with (∅ : gmap string (list MessageData)).
  rewrite archive_all_lookup, lookup_empty. apply foldl_push_evict.
Qed.

(** ** Peer identifiers *)

Lemma no_at_cons c s :
  no_at (String c s) <-> c <> at_sign /\ no_at s.
Proof.
  unfold no_at, at_sign.
  change (Js.includes "@" (String c s))
    with (String.prefix "@" (String c s) || Js.includes "@" s).
  cbn [String.prefix].
  destruct (Ascii.ascii_dec
              (Ascii.Ascii false false false false false false true false) c)
    as [<-|Hne].
  - replace (String.prefix "" s) with true by (by destruct s).
    rewrite orb_true_l. split; [discriminate | intros [H _]; by destruct H].
  - rewrite orb_false_l. split; [intros H; split; [congruence | done] | by intros [_ H]].
Qed.

Lemma prefix_at_mismatch (p s : string) c :
  c <> at_sign -> String.prefix (String at_sign p) (String c s) = false.
Proof.
  intros Hne. unfold at_sign in *. cbn [String.prefix].
  destruct (Ascii.ascii_dec
              (Ascii.Ascii false false false false false false true false) c);
    [congruence | done].
Qed.

Lemma append_empty_right (s : string) : s +:+ "" = s.
Proof.
  induction s as [|c s IH]; [done|].
  change (String c s +:+ "") with (String c (s +:+ "")). by rewrite IH.
Qed.

Lemma replace_unfold (pat rep s : string) :
  Js.replace pat rep s
  = if String.prefix pat s then rep +:+ Js.drop_chars (String.length pat) s
    else match s with
         | EmptyString => EmptyString
         | String c s' => String c (Js.replace pat rep s')
         end.
Proof. by destruct s. Qed.

Lemma includes_unfold (needle s : string) :
  Js.includes needle s
  = String.prefix needle s
    || match s with
       | EmptyString => false
       | String _ s' => Js.includes needle s'
       end.
Proof. by destruct s. Qed.

Lemma replace_strips_suffix (p n : string) :
  no_at n ->
  String.prefix (String at_sign p) (String at_sign p) = true ->
  Js.drop_chars (String.length (String at_sign p)) (String at_sign p) = "" ->
  Js.replace (String at_sign p) "" (n +:+ String at_sign p) = n.
Proof.
  intros Hn Hp Hd. induction n as [|c n IH].
  - change ("" +:+ String at_sign p) with (String at_sign p).
    rewrite replace_unfold, Hp. by rewrite Hd.
  - apply no_at_cons in Hn as [Hc Hn].
    change (String c n +:+ String at_sign p)
      with (String c (n +:+ String at_sign p)).
    rewrite replace_unfold, prefix_at_mismatch by done.
    by rewrite IH.
Qed.

Lemma replace_keeps_other (p q n : string) :
  no_at n ->
  Js.replace (String at_sign p) "" q = q ->
  Js.replace (String at_sign p) "" (n +:+ q) = n +:+ q.
Proof.
  intros Hn Hq. induction n as [|c n IH]; [done|].
  apply no_at_cons in Hn as [Hc Hn].
  change (String c n +:+ q) with (String c (n +:+ q)).
  rewrite replace_unfold, prefix_at_mismatch by done.
  by rewrite IH.
Qed.

Lemma includes_after_local (p q n : string) :
  no_at n ->
  Js.includes (String at_sign p) (n +:+ q) = Js.includes (String at_sign p) q.
Proof.
  intros Hn. induction n as [|c n IH]; [done|].
  apply no_at_cons in Hn as [Hc Hn].
  change (String c n +:+ q) with (String c (n +:+ q)).
  rewrite includes_unfold, prefix_at_mismatch by done.
  by rewrite IH.
Qed.

(** X12.  For a local part without [@]: the identifier with the individual
    suffix counts as an individual conversation and the one with the group
    suffix as a group, and the display number of either is the local part
    itself. *)
Theorem peer_identifier_of_local_part :
  forall n : string,
    no_at n ->
    FileEngine.display_number (n +:+ "@s.whatsapp.net") = n
    /\ FileEngine.display_number (n +:+ "@g.us") = n
    /\ individual (n +:+ "@s.whatsapp.net")
    /\ ~ individual (n +:+ "@g.us").
Proof.
  intros n Hn. unfold FileEngine.display_number, individual.
  pose proof (replace_strips_suffix "s.whatsapp.net" n Hn eq_refl eq_refl) as S1.
  pose proof (replace_strips_suffix "g.us" n Hn eq_refl eq_refl) as S2.
  pose proof (replace_keeps_other "g.us" "" n Hn eq_refl) as K1.
  pose proof (replace_keeps_other "s.whatsapp.net" "@g.us" n Hn eq_refl) as K2.
  pose proof (includes_after_local "g.us" "@s.whatsapp.net" n Hn) as I1.
  pose proof (includes_after_local "g.us" "@g.us" n Hn) as I2.
  rewrite append_empty_right in K1.
  change (String at_sign "s.whatsapp.net") with "@s.whatsapp.net" in *.
  change (String at_sign "g.us") with "@g.us" in *.
  rewrite S1, K1, K2, S2, I1, I2. by repeat split.
Qed.

Lemma peer_identifier_of_local_part_witness :
  FileEngine.display_number "15550000000@s.whatsapp.net" = "15550000000"
  /\ ~ individual "120363001234567890@g.us".
Proof.
  split.
  - apply (peer_identifier_of_local_part "15550000000"). reflexivity.
  - apply (peer_identifier_of_local_part "120363001234567890"). reflexivity.
Defined.

(** ** Conversation summaries *)

Lemma messageText_nonempty message : FileEngine.messageText message <> "".
Proof.
  rewrite messageText_cases.
  destruct (conversation message) as [[|a c]|],
           (extendedText message) as [[|b x]|]; done.
Qed.

(** X13.  The text of a record built by the [messages.upsert] handler is
    never empty, and the summary [GET /conversations] builds for a peer whose
    list ends with such a record shows that record: its text, its [fromMe]
    flag, its timestamp (the current time if the timestamp is 0), and the
    display number of the peer as both number and name. *)
Theorem summary_shows_last_record :
  forall (jid : string) (older : list MessageData) (message : WAMessage)
         (t now : Z),
    let md := FileEngine.messageData message t in
    let c := FileEngine.conversation_of jid (older ++ [md]) now in
    md_message md <> ""
    /\ cv_lastMessage c = md_message md
    /\ cv_lastMessageFromMe c = md_fromMe md
    /\ cv_lastMessageTime c = (if md_timestamp md =? 0 then now else md_timestamp md)
    /\ cv_number c = FileEngine.display_number jid
    /\ cv_name c = FileEngine.display_number jid
    /\ cv_id c = jid.
Proof.
  intros jid older message t now. cbn zeta.
  unfold FileEngine.conversation_of, Js.last_elem. rewrite last_snoc.
  pose proof (messageText_nonempty message) as Hne.
  cbn [fmap option_fmap option_map cv_lastMessage cv_lastMessageFromMe
       cv_lastMessageTime cv_number cv_name cv_id FileEngine.messageData
       md_message md_fromMe md_timestamp].
  repeat split; try done.
  unfold Js.or_str, Js.truthy_str.
  destruct (FileEngine.messageText message); done.
Qed.

(** ** More on the credential store *)

Lemma select_data_insert_ne sid json sid' t :
  sid' <> sid ->
  DbStore.select_data sid' (DbStore.insert_on_duplicate_key_update sid json t)
  = DbStore.select_data sid' t.
Proof.
  intros Hne. unfold DbStore.insert_on_duplicate_key_update, DbStore.select_data.
  destruct (DbStore.has_session sid t); cbn [rows].
  - induction (rows t) as [|r l IH]; [done|].
    rewrite map_cons, !filter_cons.
    destruct (String.eqb_spec (session_id r) sid) as [Heq|Hr]; cbn [session_id].
    + rewrite !decide_False by congruence. apply IH.
    + destruct (decide (session_id r = sid')); cbn [map]; by rewrite IH.
  - rewrite filter_app, filter_cons, filter_nil. cbn [session_id].
    rewrite decide_False by done. by rewrite app_nil_r.
Qed.

Lemma select_data_delete sid sid' t :
  DbStore.select_data sid' (DbStore.delete_where sid t)
  = if decide (sid' = sid) then [] else DbStore.select_data sid' t.
Proof.
  unfold DbStore.delete_where, DbStore.select_data. cbn [rows].
  induction (rows t) as [|r l IH]; [by destruct (decide _)|].
  rewrite !filter_cons.
  destruct (decide (session_id r <> sid)) as [Hk|Hk].
  - rewrite filter_cons.
    destruct (decide (session_id r = sid')) as [Hr|Hr]; cbn [map]; rewrite IH;
      destruct (decide (sid' = sid)); try done; congruence.
  - rewrite IH. destruct (decide (sid' = sid)) as [->|Hd]; [done|].
    rewrite decide_False; [done|]. intros Heq. apply Hk. congruence.
Qed.

Lemma getSession_result parse sid e :
  DbStore.getSession parse (Ok tt) sid e
  = (Ok (match DbStore.select_data sid (db e) with
         | d :: _ => parse d
         | [] => None
         end), e, []).
Proof.
  unfold DbStore.getSession, DbStore.db_query. unfold_monad. cbn.
  by destruct (DbStore.select_data sid (db e)).
Qed.

(** X14.  Sessions of the store do not interfere: saving or deleting one
    session identifier leaves what [getSession] returns for every other
    identifier unchanged, and after [deleteSession] a load of the deleted
    identifier returns the absent value. *)
Theorem store_sessions_are_independent :
  forall (stringify : AuthState -> string) (parse : string -> option AuthState)
         (e : Engine) (sid other : string) (blob : AuthState),
    let saved := final (DbStore.saveSession stringify (Ok tt) sid blob e) in
    let deleted := final (DbStore.deleteSession (Ok tt) sid e) in
    DbStore.getSession parse (Ok tt) sid deleted = (Ok None, deleted, [])
    /\ (other <> sid ->
        result (DbStore.getSession parse (Ok tt) other saved)
        = result (DbStore.getSession parse (Ok tt) other e)
        /\ result (DbStore.getSession parse (Ok tt) other deleted)
           = result (DbStore.getSession parse (Ok tt) other e)).
Proof.
  intros stringify parse e sid other blob. cbn zeta.
  rewrite !getSession_result.
  unfold DbStore.saveSession, DbStore.deleteSession, DbStore.db_execute.
  unfold_monad. cbn [fst snd db set_db]. split.
  - rewrite select_data_delete. by rewrite decide_True.
  - intros Hne. rewrite select_data_insert_ne, select_data_delete by done.
    by rewrite decide_False.
Qed.

Lemma store_sessions_are_independent_witness :
  let blob := {| creds := Some "creds"; keys := Some "keys" |} in
  let e := final (DbStore.saveSession (fun _ => "{}") (Ok tt) "default" blob
                    (new_engine "http://localhost:8000/webhook/whatsapp")) in
  result (DbStore.getSession (fun _ => Some blob) (Ok tt) "default"
            (final (DbStore.deleteSession (Ok tt) "other" e)))
  = Ok (Some blob).
Proof.
  cbn zeta.
  destruct (store_sessions_are_independent (fun _ => "{}")
              (fun _ => Some {| creds := Some "creds"; keys := Some "keys" |})
              (final (DbStore.saveSession (fun _ => "{}") (Ok tt) "default"
                        {| creds := Some "creds"; keys := Some "keys" |}
                        (new_engine "http://localhost:8000/webhook/whatsapp")))
              "other" "default" {| creds := None; keys := None |})
    as (_ & H).
  destruct (H ltac:(discriminate)) as [_ ->]. reflexivity.
Defined.

(** ** Start-up and the saved session *)

Lemma db_connect_run parse e :
  DbEngine.connect parse (Ok tt) (Ok tt) (Ok tt) e
  = let saved := match DbStore.select_data "default" (db e) with
                 | d :: _ => parse d
                 | [] => None
                 end in
    (Ok tt, set_sock (Some {| auth_restored := DbEngine.usable saved |}) e,
     [ConsoleLog (if DbEngine.usable saved
                  then "Restoring WhatsApp session from DB..."
                  else "No saved session found. Starting new login...")]).
Proof.
  unfold DbEngine.connect, DbStore.getSession, DbStore.db_query. unfold_monad.
  cbn. by destruct (DbStore.select_data "default" (db e)).
Qed.






(** ** The [creds.update] handler *)




(** X16.  [connect] of [index.js] tells a missing session from a failing
    store: when the query of [getSession] is rejected the error is caught
    and logged, no socket is opened and a retry is scheduled 5 seconds
    later; when the row is there but does not parse to a blob with both
    credentials and keys, a new login is started as if no row existed. *)
Theorem connect_failing_or_unusable_store :
  forall (parse : string -> option AuthState) (e : Engine),
    (forall x make,
        let r := DbEngine.connect parse (Ok tt) (Err x) make e in
        result r = Ok tt /\ sock (final r) = sock e
        /\ timers (final r) = timers e ++ [5000]
        /\ errors_logged (trace r) = [("Connection error:", err_message x)])
    /\ (forall d more,
           DbStore.select_data "default" (db e) = d :: more ->
           DbEngine.usable (parse d) = false ->
           let r := DbEngine.connect parse (Ok tt) (Ok tt) (Ok tt) e in
           result r = Ok tt
           /\ sock (final r) = Some {| auth_restored := false |}
           /\ timers (final r) = timers e
           /\ errors_logged (trace r) = []).
Proof.
  intros parse e. split.
  - intros x make. by repeat split.
  - intros d more Hd Hu. cbn zeta. rewrite db_connect_run, Hd. cbn zeta.
    rewrite Hu. by repeat split.
Qed.

Lemma connect_failing_or_unusable_store_witness :
  let e := final (DbStore.saveSession (fun _ => "not json") (Ok tt) "default"
                    {| creds := None; keys := None |}
                    (new_engine "http://localhost:8000/webhook/whatsapp")) in
  sock (final (DbEngine.connect (fun _ => None) (Ok tt) (Ok tt) (Ok tt) e))
  = Some {| auth_restored := false |}.
Proof.
  cbn zeta.
  destruct (connect_failing_or_unusable_store (fun _ => None)
              (final (DbStore.saveSession (fun _ => "not json") (Ok tt) "default"
                        {| creds := None; keys := None |}
                        (new_engine "http://localhost:8000/webhook/whatsapp"))))
    as [_ H].
  apply (H "not json" []); reflexivity.
Defined.

(** ** The reconnection loop *)

(** X17.  A reconnection attempt is never lost when its timer fires: in
    both engines the timer is consumed and either [connect] opened a socket,
    or it failed and left a new 5-second timer behind the ones still
    pending; status and QR artifact are untouched either way. *)
Theorem fired_timer_connects_or_reschedules :
  forall (parse : string -> option AuthState) (e : Engine) (d : Z)
         (pending : list Z) (establish : Res Sock) (version q make : Res unit),
    timers e = d :: pending ->
    let file := final (fire_timer (FileEngine.connect establish) e) in
    let db' := final (fire_timer (DbEngine.connect parse version q make) e) in
    ((exists s, establish = Ok s /\ sock file = Some s /\ timers file = pending)
     \/ (exists x, establish = Err x /\ sock file = sock e
                   /\ timers file = pending ++ [5000]))
    /\ (((version = Ok tt /\ q = Ok tt /\ make = Ok tt)
         /\ (exists s, sock db' = Some s) /\ timers db' = pending)
        \/ ((exists x, version = Err x \/ q = Err x \/ make = Err x)
            /\ sock db' = sock e /\ timers db' = pending ++ [5000]))
    /\ status file = status e /\ qrCode file = qrCode e
    /\ status db' = status e /\ qrCode db' = qrCode e.
Proof.
  intros parse e d pending establish version q make Ht. cbn zeta.
  unfold fire_timer, FileEngine.connect, DbEngine.connect, DbStore.getSession,
    DbStore.db_query.
  unfold_monad. rewrite Ht. cbn. repeat apply conj; try reflexivity.
  - destruct establish as [s|x]; cbn; [left | right]; eauto.
  - destruct version as [[]|x]; cbn; [|right; eauto 10].
    destruct q as [[]|x]; cbn; [|right; eauto 10].
    destruct (DbStore.select_data "default" (db e)); cbn;
      (destruct make as [[]|x]; cbn; [left | right]; eauto 10).
  - by destruct establish.
  - by destruct establish.
  - destruct version as [[]|x]; cbn; [|done].
    destruct q as [[]|x]; cbn; [|done].
    destruct (DbStore.select_data "default" (db e)); cbn;
      by destruct make as [[]|x].
  - destruct version as [[]|x]; cbn; [|done].
    destruct q as [[]|x]; cbn; [|done].
    destruct (DbStore.select_data "default" (db e)); cbn;
      by destruct make as [[]|x].
Qed.

Lemma fired_timer_connects_or_reschedules_witness :
  let e := final (FileEngine.on_connection_update (closed (Some 428))
                    (fun raw => Ok raw) connected_engine) in
  timers (final (fire_timer (FileEngine.connect (Err (Error "offline"))) e))
  = [5000].
Proof.
  cbn zeta.
  destruct (fired_timer_connects_or_reschedules (fun _ => None)
              (final (FileEngine.on_connection_update (closed (Some 428))
                        (fun raw => Ok raw) connected_engine))
              3000 [] (Err (Error "offline")) (Ok tt) (Ok tt) (Ok tt) eq_refl)
    as ([(s & Hs & _)|(x & _ & _ & Ht)] & _); [discriminate | exact Ht].
Defined.

(** ** POST /disconnect off the main path *)

(** X18.  [POST /disconnect] on a session that is not connected (or has no
    socket) does nothing in either engine: no logout is issued, no field of
    the engine changes, nothing is broadcast and no reconnection is
    scheduled; the answer is HTTP 200 with [success: false]. *)
Theorem disconnect_when_not_connected :
  forall (e : Engine) (logout : Res unit),
    status e <> connected \/ sock e = None ->
    FileEngine.post_disconnect logout e
    = (Ok (json (BodyFailure "Not connected to WhatsApp")), e, [])
    /\ DbEngine.post_disconnect logout e
       = (Ok (json (BodySuccess false "Already disconnected")), e, []).
Proof.
  intros e logout H.
  unfold FileEngine.post_disconnect, DbEngine.post_disconnect. unfold_monad.
  destruct (sock e); cbn; [|done].
  destruct (status e); cbn; try done.
  by destruct H.
Qed.

Lemma disconnect_when_not_connected_witness :
  FileEngine.post_disconnect (Ok tt)
    (new_engine "http://localhost:8000/webhook/whatsapp")
  = (Ok (json (BodyFailure "Not connected to WhatsApp")),
     new_engine "http://localhost:8000/webhook/whatsapp", []).
Proof.
  apply (disconnect_when_not_connected
           (new_engine "http://localhost:8000/webhook/whatsapp") (Ok tt)).
  left. discriminate.
Defined.

(** X19.  When [sock.logout()] fails on a connected session the two engines
    part ways: the file-session engine still clears its state, removes the
    session directory, schedules the reconnection and answers success, while
    [index.js] logs the error, answers HTTP 500 and keeps socket, status and
    timers as they were. *)
Theorem disconnect_when_logout_fails :
  forall (e : Engine) (s : Sock) (x : JsError),
    sock e = Some s -> status e = connected ->
    let file := FileEngine.post_disconnect (Err x) e in
    let db' := DbEngine.post_disconnect (Err x) e in
    (result file = Ok (json (BodySuccess true "Disconnected"))
     /\ sock (final file) = None /\ status (final file) = disconnected
     /\ qrCode (final file) = None /\ sessionDir (final file) = false
     /\ timers (final file) = timers e ++ [1000]
     /\ emitted (trace file) = [EmStatus disconnected; EmQr None])
    /\ (result db' = Ok (status_json 500 (BodyFailure "Disconnect failed"))
        /\ final db' = e
        /\ emitted (trace db') = []
        /\ errors_logged (trace db') = [("Disconnect error:", err_message x)]).
Proof.
  intros e s x Hs Hst. cbn zeta.
  unfold FileEngine.post_disconnect, DbEngine.post_disconnect,
    FileEngine.cleanup.
  unfold_monad. rewrite Hs, Hst. cbn.
  destruct (sessionDir e) eqn:Hd; cbn; repeat split; by rewrite ?Hd.
Qed.

Lemma disconnect_when_logout_fails_witness :
  final (DbEngine.post_disconnect (Err (Error "timed out")) connected_engine)
  = connected_engine.
Proof.
  apply (disconnect_when_logout_fails connected_engine
           {| auth_restored := false |} (Error "timed out") eq_refl eq_refl).
Defined.

(** ** POST /send and POST /mark-read when the protocol client fails *)

(** X20.  [POST /send] on a connected session with both fields present
    answers HTTP 500 and makes no webhook request whenever the socket is
    missing, the lookup throws, or the lookup finds the peer and the send
    throws; this holds in both engines. *)
Theorem send_failure_is_500_without_webhook :
  forall (e : Engine) (number message : option string) (lookup : Lookup)
         (send : Res SentMessage) (now : Z) (o : HttpOutcome),
    status e = connected ->
    Js.truthy_str number = true -> Js.truthy_str message = true ->
    sock e = None
    \/ (exists x, lookup = Err x)
    \/ (exists found rest x,
           lookup = Ok (Some (found :: rest)) /\ ow_exists found = true
           /\ send = Err x) ->
    let file := FileEngine.post_send number message lookup send now o e in
    let db' := DbEngine.post_send number message lookup send now o e in
    http_code file = Some 500 /\ http_code db' = Some 500
    /\ posts (trace file) = [] /\ posts (trace db') = [].
Proof.
  intros e number message lookup send now o Hst Hn Hm H. cbn zeta.
  unfold FileEngine.post_send, DbEngine.post_send, http_code. unfold_monad.
  rewrite Hst, Hn, Hm. cbn.
  destruct (sock e) eqn:Hs; cbn; [|by repeat split].
  destruct H as [H | [[x ->] | (found & rest & x & -> & Hex & ->)]];
    [done | by repeat split |].
  cbn. rewrite Hex. cbn. rewrite Hs. by repeat split.
Qed.

Lemma send_failure_is_500_without_webhook_witness :
  http_code (DbEngine.post_send (Some "15551234567") (Some "hi")
               (Ok (Some [ {| ow_exists := true;
                              ow_jid := "15551234567@s.whatsapp.net" |} ]))
               (Err (Error "not sent")) 0 (HttpStatus 200) connected_engine)
  = Some 500.
Proof.
  apply (send_failure_is_500_without_webhook connected_engine
           (Some "15551234567") (Some "hi")
           (Ok (Some [ {| ow_exists := true;
                          ow_jid := "15551234567@s.whatsapp.net" |} ]))
           (Err (Error "not sent")) 0 (HttpStatus 200) eq_refl eq_refl eq_refl).
  right. right. by eexists _, _, _.
Defined.

(** X21.  [POST /mark-read] on a connected session with a socket answers
    HTTP 500 when the lookup throws, HTTP 400 when the lookup reports that
    the peer does not exist (without calling [readMessages]), and otherwise
    HTTP 200 or 500 according to whether [readMessages] succeeds or throws;
    a missing number in the body is not checked before the lookup. *)
Theorem mark_read_answers :
  forall (e : Engine) (s : Sock) (number : option string) (lookup : Lookup)
         (read : Res unit),
    status e = connected -> sock e = Some s ->
    http_code (FileEngine.post_mark_read number lookup read e)
    = Some (match lookup with
            | Err _ => 500
            | Ok results =>
                if reports_absent results then 400
                else match read with
                     | Ok _ => 200
                     | Err _ => 500
                     end
            end).
Proof.
  intros e s number lookup read Hst Hs.
  unfold FileEngine.post_mark_read, http_code. unfold_monad.
  rewrite Hst. cbn. rewrite Hs.
  destruct lookup as [[[|found rest]|]|x]; cbn; try done.
  destruct (ow_exists found); cbn; [|done].
  rewrite Hs. by destruct read as [[]|y].
Qed.

Lemma mark_read_answers_witness :
  http_code (FileEngine.post_mark_read None
               (Ok (Some [ {| ow_exists := true;
                              ow_jid := "15551234567@s.whatsapp.net" |} ]))
               (Err (Error "not read")) connected_engine) = Some 500.
Proof.
  apply (mark_read_answers connected_engine {| auth_restored := false |} None
           (Ok (Some [ {| ow_exists := true;
                          ow_jid := "15551234567@s.whatsapp.net" |} ]))
           (Err (Error "not read")) eq_refl eq_refl).
Defined.

(** ** When a webhook failure is logged *)

(** X22.  When a failure line is written differs between the engines.
    [index.js], which leaves the status check to the HTTP client, writes one
    exactly when no answer arrives or the answer is outside 200-299.  The
    file-session engine writes one on every call, also when the endpoint
    would answer 200: the call never gets as far as the request. *)
Theorem webhook_failure_is_logged_exactly_when :
  forall (eventType : string) (payload : WebhookData) (now : Z)
         (o : HttpOutcome) (e : Engine),
    let accepted := fun ok : Z -> bool =>
      match o with
      | HttpStatus c => ok c
      | NetworkFailure _ => false
      end in
    (errors_logged (trace (FileEngine.sendWebhook eventType payload now o e)) <> []
     /\ posts (trace (FileEngine.sendWebhook eventType payload now o e)) = [])
    /\ (errors_logged (trace (DbEngine.sendWebhook eventType payload now o e)) = []
        <-> accepted default_validateStatus = true).
Proof.
  intros eventType payload now o e. cbn zeta.
  rewrite file_sendWebhook_run. split; [by split|].
  unfold DbEngine.sendWebhook, axios_post. unfold_monad.
  destruct o as [c|msg]; cbn; [|by split].
  by destruct (default_validateStatus c).
Qed.

Lemma webhook_failure_is_logged_exactly_when_witness :
  errors_logged
    (trace (FileEngine.sendWebhook "message_sent"
              {| wd_phone_number := Some "15551234567"; wd_message_id := "ABC123";
                 wd_message_content := Some "hi"; wd_timestamp := 0 |}
              0 (HttpStatus 200) connected_engine)) <> []
  /\ errors_logged
       (trace (DbEngine.sendWebhook "message_sent"
                 {| wd_phone_number := Some "15551234567"; wd_message_id := "ABC123";
                    wd_message_content := Some "hi"; wd_timestamp := 0 |}
                 0 (HttpStatus 200) connected_engine)) = []
  /\ errors_logged
       (trace (DbEngine.sendWebhook "message_sent"
                 {| wd_phone_number := Some "15551234567"; wd_message_id := "ABC123";
                    wd_message_content := Some "hi"; wd_timestamp := 0 |}
                 0 (HttpStatus 302) connected_engine)) <> [].
Proof.
  destruct (webhook_failure_is_logged_exactly_when "message_sent"
              {| wd_phone_number := Some "15551234567"; wd_message_id := "ABC123";
                 wd_message_content := Some "hi"; wd_timestamp := 0 |}
              0 (HttpStatus 200) connected_engine) as [[Hfile _] Hdb].
  destruct (webhook_failure_is_logged_exactly_when "message_sent"
              {| wd_phone_number := Some "15551234567"; wd_message_id := "ABC123";
                 wd_message_content := Some "hi"; wd_timestamp := 0 |}
              0 (HttpStatus 302) connected_engine) as [_ Hdb'].
  split; [exact Hfile | split].
  - apply Hdb. reflexivity.
  - intros H. apply Hdb' in H. discriminate.
Defined.

(** ** GET /conversations after a run *)

Lemma get_conversations_connected limit_q now e :
  status e = connected ->
  result (FileEngine.get_conversations limit_q now e)
  = Ok (json (BodyConversations
                (FileEngine.listConversations (conversations e)
                   (Js.or_num limit_q 20) now))).
Proof.
  intros Hst. unfold FileEngine.get_conversations. unfold_monad.
  by rewrite Hst.
Qed.

(** X23.  [GET /conversations] on a connected file-session engine, after
    any run of events from start-up, answers HTTP 200 with one summary per
    individual peer, in the order in which the run's [notify] events first
    mentioned the peers, cut off after the limit: the query parameter, or 20
    when it is missing, not a number or 0.  Peers with the group marker are
    left out. *)
Theorem get_conversations_lists_first_seen_peers :
  forall (url : string) (evs : list FileEvent) (limit_q : option Z) (now : Z),
    let e := file_run evs (new_engine url) in
    status e = connected ->
    exists summaries,
      result (FileEngine.get_conversations limit_q now e)
      = Ok (json (BodyConversations summaries))
      /\ map cv_id summaries
         = take (Z.to_nat (Js.or_num limit_q 20))
             (filter individual (first_seen [] (map fst (run_records evs)))).
Proof.
  intros url evs limit_q now. cbn zeta. intros Hst.
  eexists. split; [by apply get_conversations_connected|].
  unfold FileEngine.listConversations.
  rewrite conversations_loop_ids. cbn [map app]. rewrite Z.sub_0_r.
  destruct (file_run_archives evs (new_engine url)) as [_ ->].
  by rewrite archive_all_conversations_keys.
Qed.

Lemma get_conversations_lists_first_seen_peers_witness :
  exists summaries,
    result (FileEngine.get_conversations None 0
              (file_run sample_run
                 (new_engine "http://localhost:8000/webhook/whatsapp")))
    = Ok (json (BodyConversations summaries))
    /\ map cv_id summaries = ["15550000000@s.whatsapp.net"].
Proof.
  destruct (get_conversations_lists_first_seen_peers
              "http://localhost:8000/webhook/whatsapp" sample_run None 0 eq_refl)
    as (summaries & H1 & H2).
  exists summaries. split; [exact H1 | exact H2].
Defined.
